(** * rltf: the C51 categorical target, the epsilon-greedy DQN agent and the
      statistics recorder

    A shallow embedding of
    - [rltf/models/c51.py]      ([C51], [C51TS]),
    - [rltf/agents/dqn_agent.py] ([AgentDQN]),
    - [rltf/monitoring/stats.py] ([StatsRecorder]).

    Tensors are nested lists, indexed as in the TensorFlow graph: a rank-2
    tensor of shape [[batch, N]] is a [list (list Qc)], a rank-3 tensor of
    shape [[batch, n_actions, N]] a [list (list (list Qc))].  The [float32]
    entries of the graph are embedded as exact rationals [Qc]: every
    statement below is about exact arithmetic, rounding is not modelled,
    and neither are the infinities and not-a-number of a division by
    [dz = 0] (in [Qc], [x / 0] is [0]).
    Python exceptions are values of [exn]; a constructor or method that can
    raise returns a [result]. *)

From Stdlib Require Import QArith Qcanon Qround ZArith Lia.
From stdpp Require Import base option list numbers strings.

Local Open Scope Qc_scope.

(** ** Rationals *)

(** The literal [n/d]. *)
Definition frac (n : Z) (d : positive) : Qc := Q2Qc (n # d).

(** ** Tensor primitives *)

Module Tensor.

(** [tf.reduce_sum] along the last axis of one row. *)
Definition reduce_sum (x : list Qc) : Qc := foldr Qcplus 0 x.

(** [tf.reduce_mean] along the last axis of one row: the sum divided by
    the number of entries. *)
Definition reduce_mean (x : list Qc) : Qc :=
  reduce_sum x / Qc_of_Z (Z.of_nat (length x)).

(** [tf.reduce_sum(x, axis=1)] on one sample of shape [[n_actions, N]]:
    the entry-wise sum of the action rows, a row of length [N]. *)
Definition reduce_sum_axis1 (N : nat) (x : list (list Qc)) : list Qc :=
  foldr (zip_with Qcplus) (replicate N 0) x.

(** [tf.argmax] along the last axis of one row: the index of the first
    largest entry. *)
Fixpoint argmax_from (best_i : nat) (best : Qc) (i : nat) (x : list Qc) : nat :=
  match x with
  | [] => best_i
  | v :: x' =>
      if decide (best < v) then argmax_from i v (S i) x'
      else argmax_from best_i best (S i) x'
  end.

Definition argmax (x : list Qc) : nat :=
  match x with
  | [] => 0%nat
  | v :: x' => argmax_from 0 v 1 x'
  end.

(** [tf.one_hot(i, depth, dtype=tf.float32)]. *)
Definition one_hot (depth : nat) (i : nat) : list Qc :=
  (fun j => if decide (j = i) then 1 else 0) <$> seq 0 depth.

(** [tf.clip_by_value(t, lo, hi)], computed by TensorFlow as
    [maximum(minimum(t, hi), lo)]. *)
Definition minimum (x y : Qc) : Qc := if decide (x ≤ y) then x else y.
Definition maximum (x y : Qc) : Qc := if decide (x ≤ y) then y else x.
Definition clip_by_value (t lo hi : Qc) : Qc := maximum (minimum t hi) lo.

(** [tf.floor] and [tf.ceil]: integer-valued floats. *)
Definition floor (x : Qc) : Qc := Qc_of_Z (Qfloor x).
Definition ceil (x : Qc) : Qc := Qc_of_Z (Qceiling x).

(** [tf.to_int32]: truncation towards zero (the 32-bit range is not
    modelled; the indices of the graph are bounded by [N]). *)
Definition to_int32 (x : Qc) : Z :=
  if decide (0 ≤ x) then Qfloor x else Qceiling x.

(** One update of [tf.scatter_nd_add] on a rank-2 variable: the entry at
    [[r, c]] grows by [u].  An index outside the variable is an error of
    the CPU kernel, [None] here. *)
Definition add_at (ref : list (list Qc)) (ix : nat * Z) (u : Qc)
  : option (list (list Qc)) :=
  row ← ref !! ix.1;
  if decide (0 ≤ ix.2)%Z then
    v ← row !! Z.to_nat ix.2;
    Some (<[ix.1 := <[Z.to_nat ix.2 := v + u]> row]> ref)
  else None.

(** [tf.scatter_nd_add(ref, indices, updates)] with [indices] of shape
    [[batch, N, 2]] and [updates] of shape [[batch, N]]: the updates are
    accumulated, so repeated indices add up. *)
Definition scatter_nd_add (ref : list (list Qc))
    (indices : list (list (nat * Z))) (updates : list (list Qc))
  : option (list (list Qc)) :=
  foldl (fun acc iu => acc ≫= fun t => add_at t iu.1 iu.2)
        (Some ref) (concat (zip_with zip indices updates)).

(** [tf.cumsum(x, axis=-1, exclusive=True)] on one row: entry [i] is the
    sum of the entries before [i]. *)
Fixpoint cumsum_from (acc : Qc) (x : list Qc) : list Qc :=
  match x with
  | [] => []
  | p :: x' => acc :: cumsum_from (acc + p) x'
  end.

Definition cumsum_exclusive (x : list Qc) : list Qc := cumsum_from 0 x.

End Tensor.

(** ** Python exceptions *)

Inductive exn :=
| AssertionError
| ZeroDivisionError
| TypeError
| OSError
| GymError (msg : string).

(** The outcome of a call that may raise. *)
Definition result (A : Type) : Type := exn + A.

#[global] Instance result_ret : MRet result := fun A a => inr a.

#[global] Instance result_bind : MBind result := fun A B k r =>
  match r with
  | inl e => inl e
  | inr a => k a
  end.

Definition raise {A} (e : exn) : result A := inl e.

(** ** The categorical models, [rltf/models/c51.py] *)

Module C51.
Import Tensor.

(** What [BaseDQN.__init__] leaves on the instance and the target
    computation reads later. *)
Record BaseDQN := {
  base_n_actions : nat;
  base_gamma : Qc;
}.

(** The fields of a [C51] instance that the target computation reads. *)
Record C51 := {
  n_actions : nat;
  gamma : Qc;
  N : nat;
  V_min : Qc;
  V_max : Qc;
  dz : Qc;
}.

(** [C51.__init__].  [super] is the outcome of [BaseDQN.__init__], defined
    in [rltf/models/dqn.py].  The only failure of the body itself is the
    division by [float(N - 1)] when it is [0.0]. *)
Definition __init__ (super : result BaseDQN) (V_min V_max : Qc) (N : nat)
  : result C51 :=
  base ← super;
  if decide (Z.of_nat N - 1 = 0)%Z then raise ZeroDivisionError
  else mret {| n_actions := base_n_actions base;
             gamma := base_gamma base;
             N := N;
             V_min := V_min;
             V_max := V_max;
             dz := (V_max - V_min) / Qc_of_Z (Z.of_nat N - 1) |}.

(** The placeholders fed with a batch: [rew_t_ph] and [done_ph], both of
    shape [[batch]]. *)
Record placeholders := {
  rew_t_ph : list Qc;
  done_ph : list bool;
}.

(** [C51.build]: [bins = np.arange(0, N) * dz + V_min], without the two
    leading unit axes. *)
Definition bins (self : C51) : list Qc :=
  (fun i => Qc_of_Z (Z.of_nat i) * dz self + V_min self) <$> seq 0 (N self).

(** [tf.cast(tf.logical_not(done), tf.float32)]. *)
Definition cast_not (d : bool) : Qc := if negb d then 1 else 0.

(** [C51._compute_target]. *)
Definition _compute_target (self : C51) (ph : placeholders)
    (target_net : list (list (list Qc))) : option (list (list Qc)) :=
  let target_z := target_net in
  (* the target Q probabilities for the greedy action *)
  let target_q :=
    (fmap (fun z => reduce_sum (zip_with Qcmult z (bins self)))) <$> target_z in
  let target_act := argmax <$> target_q in
  let a_mask := one_hot (n_actions self) <$> target_act in
  let target_z :=
    zip_with
      (fun z m => reduce_sum_axis1 (N self)
                    (zip_with (fun za ma => (fun p => p * ma) <$> za) z m))
      target_z a_mask in
  (* projected bin support *)
  let done_mask := cast_not <$> done_ph ph in
  let rew_t := rew_t_ph ph in
  let target_bins :=
    zip_with (fun r m => (fun b => r + gamma self * m * b) <$> bins self)
             rew_t done_mask in
  let target_bins :=
    (fmap (fun t => clip_by_value t (V_min self) (V_max self))) <$> target_bins in
  (* projected bin indices *)
  let bin_inds := (fmap (fun t => (t - V_min self) / dz self)) <$> target_bins in
  let bin_inds_lo := (fmap floor) <$> bin_inds in
  let bin_inds_hi := (fmap ceil) <$> bin_inds in
  let lo_add :=
    zip_with (zip_with Qcmult) target_z
             (zip_with (zip_with Qcminus) bin_inds_hi bin_inds) in
  let hi_add :=
    zip_with (zip_with Qcmult) target_z
             (zip_with (zip_with Qcminus) bin_inds bin_inds_lo) in
  (* the variable holding the target distribution, reset to 0 *)
  let zeros := (fmap (fun _ => 0)) <$> target_bins in
  let target_z := zeros in
  (* indices for scatter_nd_add *)
  let batch := length (done_ph ph) in
  let row_inds := (fun r => replicate (N self) r) <$> seq 0 batch in
  let bin_inds_lo :=
    zip_with (zip_with pair) row_inds ((fmap to_int32) <$> bin_inds_lo) in
  let bin_inds_hi :=
    zip_with (zip_with pair) row_inds ((fmap to_int32) <$> bin_inds_hi) in
  target_z ← scatter_nd_add target_z bin_inds_lo lo_add;
  target_z ← scatter_nd_add target_z bin_inds_hi hi_add;
  Some target_z.

(** [C51._compute_estimate]: the distribution of the action taken, for
    every sample; [act_t_ph] is the placeholder of the actions. *)
Definition _compute_estimate (self : C51) (act_t_ph : list nat)
    (agent_net : list (list (list Qc))) : list (list Qc) :=
  let a_mask := one_hot (n_actions self) <$> act_t_ph in
  let z :=
    zip_with
      (fun z m => reduce_sum_axis1 (N self)
                    (zip_with (fun za ma => (fun p => p * ma) <$> za) z m))
      agent_net a_mask in
  z.

(** [C51._act_train]: the action of largest expected value. *)
Definition _act_train (self : C51) (agent_net : list (list (list Qc)))
  : list nat :=
  let q :=
    (fmap (fun z => reduce_sum (zip_with Qcmult z (bins self)))) <$> agent_net in
  let action := argmax <$> q in
  action.

End C51.

Module C51TS.
Import Tensor.
Export C51.

(** [C51TS._compute_target], the double-DQN target.  [agent_z] is the
    output of [self._nn_model(self._obs_tp1, scope="agent_net")], the
    online network at the next state. *)
Definition _compute_target (self : C51) (ph : placeholders)
    (agent_z target_net : list (list (list Qc))) : option (list (list Qc)) :=
  let target_z := target_net in
  (* the Z and Q estimates with the agent network variables *)
  let agent_q :=
    (fmap (fun z => reduce_mean (zip_with Qcmult z (bins self)))) <$> agent_z in
  (* the target Q probabilities *)
  let target_act := argmax <$> agent_q in
  let a_mask := one_hot (n_actions self) <$> target_act in
  let target_z :=
    zip_with
      (fun z m => reduce_sum_axis1 (N self)
                    (zip_with (fun za ma => (fun p => p * ma) <$> za) z m))
      target_z a_mask in
  (* projected bin support *)
  let done_mask := cast_not <$> done_ph ph in
  let rew_t := rew_t_ph ph in
  let target_bins :=
    zip_with (fun r m => (fun b => r + gamma self * m * b) <$> bins self)
             rew_t done_mask in
  let target_bins :=
    (fmap (fun t => clip_by_value t (V_min self) (V_max self))) <$> target_bins in
  (* projected bin indices *)
  let bin_inds := (fmap (fun t => (t - V_min self) / dz self)) <$> target_bins in
  let bin_inds_lo := (fmap floor) <$> bin_inds in
  let bin_inds_hi := (fmap ceil) <$> bin_inds in
  let lo_add :=
    zip_with (zip_with Qcmult) target_z
             (zip_with (zip_with Qcminus) bin_inds_hi bin_inds) in
  let hi_add :=
    zip_with (zip_with Qcmult) target_z
             (zip_with (zip_with Qcminus) bin_inds bin_inds_lo) in
  (* the variable holding the target distribution, reset to 0 *)
  let zeros := (fmap (fun _ => 0)) <$> target_bins in
  let target_z := zeros in
  (* indices for scatter_nd_add *)
  let batch := length (done_ph ph) in
  let row_inds := (fun r => replicate (N self) r) <$> seq 0 batch in
  let bin_inds_lo :=
    zip_with (zip_with pair) row_inds ((fmap to_int32) <$> bin_inds_lo) in
  let bin_inds_hi :=
    zip_with (zip_with pair) row_inds ((fmap to_int32) <$> bin_inds_hi) in
  target_z ← scatter_nd_add target_z bin_inds_lo lo_add;
  target_z ← scatter_nd_add target_z bin_inds_hi hi_add;
  Some target_z.

(** [C51TS._act_train].  [draws] are the outcomes of
    [tf.random_uniform([batch, 1], 0.0, 1.0)], one per sample of the
    batch. *)
Definition _act_train (self : C51) (draws : nat -> Qc)
    (agent_net : list (list (list Qc))) : list nat :=
  (* samples *)
  let sample := draws <$> seq 0 (length agent_net) in
  let sample := (fun u => replicate (n_actions self) u) <$> sample in
  (* CDF of each action *)
  let cdf := (fmap (M:=list) cumsum_exclusive) <$> agent_net in
  (* the sampled bin indices *)
  let offset :=
    zip_with
      (zip_with (fun (c : list Qc) u =>
                   (fun x => if decide (x ≤ u) then 0 else frac (-2) 1 * 1) <$> c))
      cdf sample in
  let inds :=
    zip_with (zip_with (fun c o => argmax (zip_with Qcplus c o))) cdf offset in
  (* the value of the sampled bin *)
  let inds := (fmap (M:=list) (one_hot (N self))) <$> inds in
  let q :=
    (fmap (M:=list) (fun i => reduce_sum (zip_with Qcmult (bins self) i))) <$> inds in
  let action := argmax <$> q in
  action.

(** [C51TS._act_eval]: the action of largest expected value. *)
Definition _act_eval (self : C51) (agent_net : list (list (list Qc)))
  : list nat :=
  let q :=
    (fmap (fun z => reduce_sum (zip_with Qcmult z (bins self)))) <$> agent_net in
  let action := argmax <$> q in
  action.

End C51TS.

(** ** The DQN agent, [rltf/agents/dqn_agent.py] *)

Module AgentDQN.

(** The spaces of [gym.spaces]. *)
Inductive space :=
| Box (shape : list nat)
| Discrete (n : nat)
| MultiBinary (n : nat)
| MultiDiscrete (nvec : list nat)
| TupleSpace (arity : nat)
| DictSpace (keys : list string).

(** What the constructor reads of [self.env_train]. *)
Record env := {
  observation_space : space;
  action_space : space;
}.

(** The two queries of [rltf.models.Model] the agent runs; [St] is the type
    of the stacked observation fed to the network. *)
Record Model (St : Type) := {
  action_train : St -> nat;
  action_eval : St -> nat;
}.
Arguments action_train {St}.
Arguments action_eval {St}.

Record AgentDQN (St RB : Type) := {
  env_train : env;
  exploration : Z -> Qc;
  epsilon_eval : Qc;
  update_target_freq : Z;
  model : Model St;
  replay_buf : RB;
}.
Arguments env_train {St RB}.
Arguments exploration {St RB}.
Arguments epsilon_eval {St RB}.
Arguments update_target_freq {St RB}.
Arguments model {St RB}.
Arguments replay_buf {St RB}.

(** [AgentDQN.__init__].  Defined in other modules of the package and
    therefore arguments: [super], the outcome of the base class
    constructor, which sets [self.env_train]; [model_cls], the model class
    applied to [model_kwargs] once [obs_shape] and [n_actions] are filled
    in; [ReplayBuffer]; and [_define_log_info] of the base class.  The two
    [assert] statements are taken as executed (no [python -O]). *)
Definition __init__ {St RB : Type} (super : result env)
    (model_cls : list nat -> nat -> result (Model St))
    (exploration : Z -> Qc) (update_target_freq memory_size : Z)
    (obs_len : nat) (epsilon_eval : Qc)
    (ReplayBuffer : Z -> list nat -> nat -> result RB)
    (_define_log_info : result unit)
  : result (AgentDQN St RB) :=
  env_train ← super;
  match observation_space env_train with
  | Box shape =>
      match action_space env_train with
      | Discrete n =>
          let n_actions := n in
          let obs_shape := shape in
          let obs_len := if decide (length obs_shape = 3%nat) then obs_len else 1%nat in
          model ← model_cls obs_shape n_actions;
          replay_buf ← ReplayBuffer memory_size obs_shape obs_len;
          _ ← _define_log_info;
          mret {| env_train := env_train;
                  exploration := exploration;
                  epsilon_eval := epsilon_eval;
                  update_target_freq := update_target_freq;
                  model := model;
                  replay_buf := replay_buf |}
      | _ => raise AssertionError
      end
  | _ => raise AssertionError
  end.

(** The two random sources of the agent: [self.prng], read by
    [prng.uniform(0,1)], and the generator behind [action_space.sample()].
    Each is a stream of outcomes with the position of the next one. *)
Record world := {
  uniform : nat -> Qc;
  uniform_pos : nat;
  space_sample : nat -> nat;
  space_pos : nat;
}.

Definition prng_uniform (w : world) : Qc * world :=
  (uniform w (uniform_pos w),
   {| uniform := uniform w; uniform_pos := S (uniform_pos w);
      space_sample := space_sample w; space_pos := space_pos w |}).

Definition action_space_sample (w : world) : nat * world :=
  (space_sample w (space_pos w),
   {| uniform := uniform w; uniform_pos := uniform_pos w;
      space_sample := space_sample w; space_pos := S (space_pos w) |}).

(** [AgentDQN._action_train]: the epsilon-greedy policy. *)
Definition _action_train {St RB} (self : AgentDQN St RB) (state : St) (t : Z)
    (w : world) : nat * world :=
  let epsilon := exploration self t in
  let '(u, w) := prng_uniform w in
  if decide (u < epsilon) then action_space_sample w
  else (action_train (model self) state, w).

(** [AgentDQN._action_eval]. *)
Definition _action_eval {St RB} (self : AgentDQN St RB) (state : St) (t : Z)
    (w : world) : nat * world :=
  let '(u, w) := prng_uniform w in
  if decide (u < epsilon_eval self) then action_space_sample w
  else (action_eval (model self) state, w).

End AgentDQN.

(** ** The statistics recorder, [rltf/monitoring/stats.py] *)

Module StatsRecorder.

(** Python and NumPy floats: the finite values, the two infinities and
    not-a-number. *)
Inductive pyfloat :=
| nan
| ninf
| pinf
| fin (q : Qc).

#[global] Instance pyfloat_eq_dec : EqDecision pyfloat.
Proof. solve_decision. Defined.

(** [a > b] on floats: false as soon as one side is not-a-number. *)
Definition fgt (a b : pyfloat) : bool :=
  match a, b with
  | nan, _ | _, nan => false
  | ninf, _ => false
  | pinf, pinf => false
  | pinf, _ => true
  | fin _, ninf => true
  | fin _, pinf => false
  | fin x, fin y => bool_decide (y < x)
  end.

(** The builtin [max(a, b)]: [b] replaces [a] only when [b > a]. *)
Definition py_max (a b : pyfloat) : pyfloat := if fgt b a then b else a.

Definition fadd (a b : pyfloat) : pyfloat :=
  match a, b with
  | nan, _ | _, nan => nan
  | pinf, ninf | ninf, pinf => nan
  | pinf, _ | _, pinf => pinf
  | ninf, _ | _, ninf => ninf
  | fin x, fin y => fin (x + y)
  end.

(** Division of a float by a count. *)
Definition fdiv_count (a : pyfloat) (n : nat) : pyfloat :=
  match n with
  | O => nan
  | S _ =>
      match a with
      | fin x => fin (x / Qc_of_Z (Z.of_nat n))
      | _ => a
      end
  end.

(** [np.mean]: not-a-number on an empty array. *)
Definition np_mean (data : list pyfloat) : pyfloat :=
  fdiv_count (foldr fadd (fin 0) data) (length data).

(** [np.maximum], which propagates not-a-number. *)
Definition np_maximum (a b : pyfloat) : pyfloat :=
  match a, b with
  | nan, _ | _, nan => nan
  | _, _ => if fgt b a then b else a
  end.

(** [np.max] of a non-empty array. *)
Definition np_max (x : pyfloat) (data : list pyfloat) : pyfloat :=
  foldl np_maximum x data.

(** The slice [data[start:]]. *)
Definition slice_from {A} (start : Z) (data : list A) : list A :=
  let len := Z.of_nat (length data) in
  let start := if decide (start < 0)%Z then Z.max (start + len) 0
               else Z.min start len in
  drop (Z.to_nat start) data.

(** One of the dictionaries [train_stats] and [eval_stats]: the keys are
    the same five string literals wherever it is built or read. *)
Record stats := {
  mean_ep_rew : pyfloat;
  mean_ep_len : pyfloat;
  best_mean_rew : pyfloat;
  best_ep_rew : pyfloat;
  ep_last_stats : Z;
}.

Definition set_mean_ep_rew (v : pyfloat) (s : stats) : stats :=
  {| mean_ep_rew := v; mean_ep_len := mean_ep_len s;
     best_mean_rew := best_mean_rew s; best_ep_rew := best_ep_rew s;
     ep_last_stats := ep_last_stats s |}.

Definition set_mean_ep_len (v : pyfloat) (s : stats) : stats :=
  {| mean_ep_rew := mean_ep_rew s; mean_ep_len := v;
     best_mean_rew := best_mean_rew s; best_ep_rew := best_ep_rew s;
     ep_last_stats := ep_last_stats s |}.

Definition set_best_mean_rew (v : pyfloat) (s : stats) : stats :=
  {| mean_ep_rew := mean_ep_rew s; mean_ep_len := mean_ep_len s;
     best_mean_rew := v; best_ep_rew := best_ep_rew s;
     ep_last_stats := ep_last_stats s |}.

Definition set_best_ep_rew (v : pyfloat) (s : stats) : stats :=
  {| mean_ep_rew := mean_ep_rew s; mean_ep_len := mean_ep_len s;
     best_mean_rew := best_mean_rew s; best_ep_rew := v;
     ep_last_stats := ep_last_stats s |}.

Definition set_ep_last_stats (v : Z) (s : stats) : stats :=
  {| mean_ep_rew := mean_ep_rew s; mean_ep_len := mean_ep_len s;
     best_mean_rew := best_mean_rew s; best_ep_rew := best_ep_rew s;
     ep_last_stats := v |}.

(** The member data of a [StatsRecorder]; [None] is Python's [None]. *)
Record StatsRecorder := {
  log_dir : string;
  n_ep_stats : Z;
  steps_p_s : option Qc;
  t_last_log : Qc;
  step_last_log : Z;
  train_ep_rews : list pyfloat;
  train_ep_lens : list Z;
  train_steps : Z;
  train_stats : option stats;
  eval_ep_rews : list pyfloat;
  eval_ep_lens : list Z;
  eval_steps : Z;
  eval_stats : option stats;
  ep_reward : option pyfloat;
  ep_steps : option Z;
  env_steps : Z;
  disabled : bool;
  _mode : string;
}.

Definition set_steps_p_s (v : option Qc) (s : StatsRecorder) : StatsRecorder :=
  {| log_dir := log_dir s; n_ep_stats := n_ep_stats s; steps_p_s := v;
     t_last_log := t_last_log s; step_last_log := step_last_log s;
     train_ep_rews := train_ep_rews s; train_ep_lens := train_ep_lens s;
     train_steps := train_steps s; train_stats := train_stats s;
     eval_ep_rews := eval_ep_rews s; eval_ep_lens := eval_ep_lens s;
     eval_steps := eval_steps s; eval_stats := eval_stats s;
     ep_reward := ep_reward s; ep_steps := ep_steps s;
     env_steps := env_steps s; disabled := disabled s; _mode := _mode s |}.

Definition set_t_last_log (v : Qc) (s : StatsRecorder) : StatsRecorder :=
  {| log_dir := log_dir s; n_ep_stats := n_ep_stats s;
     steps_p_s := steps_p_s s; t_last_log := v;
     step_last_log := step_last_log s; train_ep_rews := train_ep_rews s;
     train_ep_lens := train_ep_lens s; train_steps := train_steps s;
     train_stats := train_stats s; eval_ep_rews := eval_ep_rews s;
     eval_ep_lens := eval_ep_lens s; eval_steps := eval_steps s;
     eval_stats := eval_stats s; ep_reward := ep_reward s;
     ep_steps := ep_steps s; env_steps := env_steps s;
     disabled := disabled s; _mode := _mode s |}.

Definition set_step_last_log (v : Z) (s : StatsRecorder) : StatsRecorder :=
  {| log_dir := log_dir s; n_ep_stats := n_ep_stats s;
     steps_p_s := steps_p_s s; t_last_log := t_last_log s;
     step_last_log := v; train_ep_rews := train_ep_rews s;
     train_ep_lens := train_ep_lens s; train_steps := train_steps s;
     train_stats := train_stats s; eval_ep_rews := eval_ep_rews s;
     eval_ep_lens := eval_ep_lens s; eval_steps := eval_steps s;
     eval_stats := eval_stats s; ep_reward := ep_reward s;
     ep_steps := ep_steps s; env_steps := env_steps s;
     disabled := disabled s; _mode := _mode s |}.

Definition set_train_ep_rews (v : list pyfloat) (s : StatsRecorder) : StatsRecorder :=
  {| log_dir := log_dir s; n_ep_stats := n_ep_stats s;
     steps_p_s := steps_p_s s; t_last_log := t_last_log s;
     step_last_log := step_last_log s; train_ep_rews := v;
     train_ep_lens := train_ep_lens s; train_steps := train_steps s;
     train_stats := train_stats s; eval_ep_rews := eval_ep_rews s;
     eval_ep_lens := eval_ep_lens s; eval_steps := eval_steps s;
     eval_stats := eval_stats s; ep_reward := ep_reward s;
     ep_steps := ep_steps s; env_steps := env_steps s;
     disabled := disabled s; _mode := _mode s |}.

Definition set_train_ep_lens (v : list Z) (s : StatsRecorder) : StatsRecorder :=
  {| log_dir := log_dir s; n_ep_stats := n_ep_stats s;
     steps_p_s := steps_p_s s; t_last_log := t_last_log s;
     step_last_log := step_last_log s; train_ep_rews := train_ep_rews s;
     train_ep_lens := v; train_steps := train_steps s;
     train_stats := train_stats s; eval_ep_rews := eval_ep_rews s;
     eval_ep_lens := eval_ep_lens s; eval_steps := eval_steps s;
     eval_stats := eval_stats s; ep_reward := ep_reward s;
     ep_steps := ep_steps s; env_steps := env_steps s;
     disabled := disabled s; _mode := _mode s |}.

Definition set_train_steps (v : Z) (s : StatsRecorder) : StatsRecorder :=
  {| log_dir := log_dir s; n_ep_stats := n_ep_stats s;
     steps_p_s := steps_p_s s; t_last_log := t_last_log s;
     step_last_log := step_last_log s; train_ep_rews := train_ep_rews s;
     train_ep_lens := train_ep_lens s; train_steps := v;
     train_stats := train_stats s; eval_ep_rews := eval_ep_rews s;
     eval_ep_lens := eval_ep_lens s; eval_steps := eval_steps s;
     eval_stats := eval_stats s; ep_reward := ep_reward s;
     ep_steps := ep_steps s; env_steps := env_steps s;
     disabled := disabled s; _mode := _mode s |}.

Definition set_train_stats (v : option stats) (s : StatsRecorder) : StatsRecorder :=
  {| log_dir := log_dir s; n_ep_stats := n_ep_stats s;
     steps_p_s := steps_p_s s; t_last_log := t_last_log s;
     step_last_log := step_last_log s; train_ep_rews := train_ep_rews s;
     train_ep_lens := train_ep_lens s; train_steps := train_steps s;
     train_stats := v; eval_ep_rews := eval_ep_rews s;
     eval_ep_lens := eval_ep_lens s; eval_steps := eval_steps s;
     eval_stats := eval_stats s; ep_reward := ep_reward s;
     ep_steps := ep_steps s; env_steps := env_steps s;
     disabled := disabled s; _mode := _mode s |}.

Definition set_eval_ep_rews (v : list pyfloat) (s : StatsRecorder) : StatsRecorder :=
  {| log_dir := log_dir s; n_ep_stats := n_ep_stats s;
     steps_p_s := steps_p_s s; t_last_log := t_last_log s;
     step_last_log := step_last_log s; train_ep_rews := train_ep_rews s;
     train_ep_lens := train_ep_lens s; train_steps := train_steps s;
     train_stats := train_stats s; eval_ep_rews := v;
     eval_ep_lens := eval_ep_lens s; eval_steps := eval_steps s;
     eval_stats := eval_stats s; ep_reward := ep_reward s;
     ep_steps := ep_steps s; env_steps := env_steps s;
     disabled := disabled s; _mode := _mode s |}.

Definition set_eval_ep_lens (v : list Z) (s : StatsRecorder) : StatsRecorder :=
  {| log_dir := log_dir s; n_ep_stats := n_ep_stats s;
     steps_p_s := steps_p_s s; t_last_log := t_last_log s;
     step_last_log := step_last_log s; train_ep_rews := train_ep_rews s;
     train_ep_lens := train_ep_lens s; train_steps := train_steps s;
     train_stats := train_stats s; eval_ep_rews := eval_ep_rews s;
     eval_ep_lens := v; eval_steps := eval_steps s;
     eval_stats := eval_stats s; ep_reward := ep_reward s;
     ep_steps := ep_steps s; env_steps := env_steps s;
     disabled := disabled s; _mode := _mode s |}.

Definition set_eval_steps (v : Z) (s : StatsRecorder) : StatsRecorder :=
  {| log_dir := log_dir s; n_ep_stats := n_ep_stats s;
     steps_p_s := steps_p_s s; t_last_log := t_last_log s;
     step_last_log := step_last_log s; train_ep_rews := train_ep_rews s;
     train_ep_lens := train_ep_lens s; train_steps := train_steps s;
     train_stats := train_stats s; eval_ep_rews := eval_ep_rews s;
     eval_ep_lens := eval_ep_lens s; eval_steps := v;
     eval_stats := eval_stats s; ep_reward := ep_reward s;
     ep_steps := ep_steps s; env_steps := env_steps s;
     disabled := disabled s; _mode := _mode s |}.

Definition set_eval_stats (v : option stats) (s : StatsRecorder) : StatsRecorder :=
  {| log_dir := log_dir s; n_ep_stats := n_ep_stats s;
     steps_p_s := steps_p_s s; t_last_log := t_last_log s;
     step_last_log := step_last_log s; train_ep_rews := train_ep_rews s;
     train_ep_lens := train_ep_lens s; train_steps := train_steps s;
     train_stats := train_stats s; eval_ep_rews := eval_ep_rews s;
     eval_ep_lens := eval_ep_lens s; eval_steps := eval_steps s;
     eval_stats := v; ep_reward := ep_reward s; ep_steps := ep_steps s;
     env_steps := env_steps s; disabled := disabled s; _mode := _mode s |}.

Definition set_ep_reward (v : option pyfloat) (s : StatsRecorder) : StatsRecorder :=
  {| log_dir := log_dir s; n_ep_stats := n_ep_stats s;
     steps_p_s := steps_p_s s; t_last_log := t_last_log s;
     step_last_log := step_last_log s; train_ep_rews := train_ep_rews s;
     train_ep_lens := train_ep_lens s; train_steps := train_steps s;
     train_stats := train_stats s; eval_ep_rews := eval_ep_rews s;
     eval_ep_lens := eval_ep_lens s; eval_steps := eval_steps s;
     eval_stats := eval_stats s; ep_reward := v; ep_steps := ep_steps s;
     env_steps := env_steps s; disabled := disabled s; _mode := _mode s |}.

Definition set_ep_steps (v : option Z) (s : StatsRecorder) : StatsRecorder :=
  {| log_dir := log_dir s; n_ep_stats := n_ep_stats s;
     steps_p_s := steps_p_s s; t_last_log := t_last_log s;
     step_last_log := step_last_log s; train_ep_rews := train_ep_rews s;
     train_ep_lens := train_ep_lens s; train_steps := train_steps s;
     train_stats := train_stats s; eval_ep_rews := eval_ep_rews s;
     eval_ep_lens := eval_ep_lens s; eval_steps := eval_steps s;
     eval_stats := eval_stats s; ep_reward := ep_reward s; ep_steps := v;
     env_steps := env_steps s; disabled := disabled s; _mode := _mode s |}.

Definition set_env_steps (v : Z) (s : StatsRecorder) : StatsRecorder :=
  {| log_dir := log_dir s; n_ep_stats := n_ep_stats s;
     steps_p_s := steps_p_s s; t_last_log := t_last_log s;
     step_last_log := step_last_log s; train_ep_rews := train_ep_rews s;
     train_ep_lens := train_ep_lens s; train_steps := train_steps s;
     train_stats := train_stats s; eval_ep_rews := eval_ep_rews s;
     eval_ep_lens := eval_ep_lens s; eval_steps := eval_steps s;
     eval_stats := eval_stats s; ep_reward := ep_reward s;
     ep_steps := ep_steps s; env_steps := v; disabled := disabled s;
     _mode := _mode s |}.

Definition set_disabled (v : bool) (s : StatsRecorder) : StatsRecorder :=
  {| log_dir := log_dir s; n_ep_stats := n_ep_stats s;
     steps_p_s := steps_p_s s; t_last_log := t_last_log s;
     step_last_log := step_last_log s; train_ep_rews := train_ep_rews s;
     train_ep_lens := train_ep_lens s; train_steps := train_steps s;
     train_stats := train_stats s; eval_ep_rews := eval_ep_rews s;
     eval_ep_lens := eval_ep_lens s; eval_steps := eval_steps s;
     eval_stats := eval_stats s; ep_reward := ep_reward s;
     ep_steps := ep_steps s; env_steps := env_steps s; disabled := v;
     _mode := _mode s |}.

Definition set_mode (v : string) (s : StatsRecorder) : StatsRecorder :=
  {| log_dir := log_dir s; n_ep_stats := n_ep_stats s;
     steps_p_s := steps_p_s s; t_last_log := t_last_log s;
     step_last_log := step_last_log s; train_ep_rews := train_ep_rews s;
     train_ep_lens := train_ep_lens s; train_steps := train_steps s;
     train_stats := train_stats s; eval_ep_rews := eval_ep_rews s;
     eval_ep_lens := eval_ep_lens s; eval_steps := eval_steps s;
     eval_stats := eval_stats s; ep_reward := ep_reward s;
     ep_steps := ep_steps s; env_steps := env_steps s;
     disabled := disabled s; _mode := v |}.

(** Methods run in a state and exception monad over the recorder: a
    method returns its outcome together with the recorder as the call left
    it, also when it raises. *)
Definition M (A : Type) : Type := StatsRecorder -> result A * StatsRecorder.

#[global] Instance M_ret : MRet M := fun A a s => (inr a, s).

#[global] Instance M_bind : MBind M := fun A B k m s =>
  match m s with
  | (inl e, s') => (inl e, s')
  | (inr a, s') => k a s'
  end.

Definition get {A} (f : StatsRecorder -> A) : M A := fun s => (inr (f s), s).
Definition modify (f : StatsRecorder -> StatsRecorder) : M unit :=
  fun s => (inr tt, f s).
Definition throw {A} (e : exn) : M A := fun s => (inl e, s).

(** Reading a member that must not be [None]: subscripting or adding to
    [None] is a [TypeError]. *)
Definition not_None {A} (f : StatsRecorder -> option A) : M A := fun s =>
  match f s with
  | Some a => (inr a, s)
  | None => (inl TypeError, s)
  end.

(** The file system as [__init__] meets it: whether [log_dir] exists, and
    the outcome of [os.makedirs] when it does not. *)
Record filesystem := {
  path_exists : bool;
  makedirs : result unit;
}.

(** [StatsRecorder.__init__]; [now] is the value of [time.time()]. *)
Definition __init__ (fs : filesystem) (now : Qc) (log_dir : string)
    (mode : string) (n_ep_stats : Z) : result StatsRecorder :=
  let self :=
    {| log_dir := log_dir;
       n_ep_stats := n_ep_stats;
       steps_p_s := None;
       t_last_log := now;
       step_last_log := 0;
       train_ep_rews := [];
       train_ep_lens := [];
       train_steps := 0;
       train_stats := None;
       eval_ep_rews := [];
       eval_ep_lens := [];
       eval_steps := 0;
       eval_stats := None;
       ep_reward := None;
       ep_steps := None;
       env_steps := 0;
       disabled := false;
       _mode := mode |} in
  if negb (path_exists fs) then _ ← makedirs fs; mret self
  else mret self.

(** The getter of the property [mode]. *)
Definition mode : M string := get _mode.

(** The setter of the property [mode]. *)
Definition mode_setter (mode : string) : M unit :=
  if negb (bool_decide (mode ∈ ["t"; "e"]))
  then throw (GymError "Invalid mode {}: must be t for training or e for evaluation")
  else modify (set_mode mode).

Definition before_step : M unit :=
  d ← get disabled;
  if (d : bool) then throw AssertionError else mret tt.

(** [np.float32(x)]: [None] is converted to not-a-number. *)
Definition np_float32 (x : option pyfloat) : pyfloat := default nan x.

Definition _finish_episode : M unit :=
  m ← get _mode;
  if bool_decide (m = "t") then
    steps ← not_None ep_steps;
    modify (fun s => set_train_steps (train_steps s + steps) s);;
    modify (fun s => set_train_ep_lens (train_ep_lens s ++ [steps]) s);;
    rew ← get (fun s => np_float32 (ep_reward s));
    modify (fun s => set_train_ep_rews (train_ep_rews s ++ [rew]) s)
  else
    steps ← not_None ep_steps;
    modify (fun s => set_eval_steps (eval_steps s + steps) s);;
    modify (fun s => set_eval_ep_lens (eval_ep_lens s ++ [steps]) s);;
    rew ← get (fun s => np_float32 (ep_reward s));
    modify (fun s => set_eval_ep_rews (eval_ep_rews s ++ [rew]) s).

Definition after_step (reward : pyfloat) (done : bool) : M unit :=
  steps ← not_None ep_steps;
  modify (set_ep_steps (Some (steps + 1)%Z));;
  modify (fun s => set_env_steps (env_steps s + 1) s);;
  rew ← not_None ep_reward;
  modify (set_ep_reward (Some (fadd rew reward)));;
  if done then _finish_episode else mret tt.

Definition before_reset : M unit :=
  d ← get disabled;
  if (d : bool) then throw AssertionError else mret tt.

Definition after_reset : M unit :=
  modify (set_ep_steps (Some 0%Z));;
  modify (set_ep_reward (Some (fin 0))).

Definition close : M unit := modify (set_disabled true).

(** The two dictionaries as [define_log_info] creates them. *)
Definition fresh_stats : stats :=
  {| mean_ep_rew := nan;
     mean_ep_len := nan;
     best_mean_rew := ninf;
     best_ep_rew := ninf;
     ep_last_stats := 0 |}.

(** [StatsRecorder.define_log_info], without the table of format strings
    and lambdas it stores in [self.log_info]. *)
Definition define_log_info : M unit :=
  modify (set_train_stats (Some fresh_stats));;
  modify (set_eval_stats (Some fresh_stats)).

(** [StatsRecorder._stats_mean]. *)
Definition _stats_mean (self : StatsRecorder) (data : list pyfloat) : pyfloat :=
  if decide (0 < length data)%nat
  then np_mean (slice_from (- n_ep_stats self) data)
  else nan.

(** The local function [_stats_max] of [_compute_runtime_stats]. *)
Definition _stats_max (data : list pyfloat) (i : Z) : pyfloat :=
  match slice_from i data with
  | x :: rest => np_max x rest
  | [] => ninf
  end.

(** The conversion of the [np.int32] episode lengths by [np.mean]. *)
Definition of_int (n : Z) : pyfloat := fin (Qc_of_Z n).

(** [StatsRecorder._compute_runtime_stats]; [t_now] is the value of
    [time.time()]. *)
Definition _compute_runtime_stats (step : Z) (t_now : Qc) : M unit :=
  v ← get (fun self => _stats_mean self (train_ep_rews self));
  st ← not_None train_stats;
  modify (set_train_stats (Some (set_mean_ep_rew v st)));;
  v ← get (fun self => _stats_mean self (of_int <$> train_ep_lens self));
  st ← not_None train_stats;
  modify (set_train_stats (Some (set_mean_ep_len v st)));;
  st ← not_None train_stats;
  modify (set_train_stats
            (Some (set_best_mean_rew (py_max (best_mean_rew st) (mean_ep_rew st)) st)));;
  st ← not_None train_stats;
  best_ep_rew_ ← get (fun self => _stats_max (train_ep_rews self) (ep_last_stats st));
  modify (set_train_stats
            (Some (set_best_ep_rew (py_max (best_ep_rew st) best_ep_rew_) st)));;
  st ← not_None train_stats;
  n ← get (fun self => Z.of_nat (length (train_ep_rews self)));
  modify (set_train_stats (Some (set_ep_last_stats n st)));;

  v ← get (fun self => _stats_mean self (eval_ep_rews self));
  st ← not_None eval_stats;
  modify (set_eval_stats (Some (set_mean_ep_rew v st)));;
  v ← get (fun self => _stats_mean self (of_int <$> eval_ep_lens self));
  st ← not_None eval_stats;
  modify (set_eval_stats (Some (set_mean_ep_len v st)));;
  st ← not_None eval_stats;
  modify (set_eval_stats
            (Some (set_best_mean_rew (py_max (best_mean_rew st) (mean_ep_rew st)) st)));;
  st ← not_None eval_stats;
  best_ep_rew_ ← get (fun self => _stats_max (eval_ep_rews self) (ep_last_stats st));
  modify (set_eval_stats
            (Some (set_best_ep_rew (py_max (best_ep_rew st) best_ep_rew_) st)));;
  st ← not_None eval_stats;
  n ← get (fun self => Z.of_nat (length (eval_ep_rews self)));
  modify (set_eval_stats (Some (set_ep_last_stats n st)));;

  m ← get _mode;
  (if bool_decide (m = "t") then
     last_step ← get step_last_log;
     last_t ← get t_last_log;
     (if decide (t_now - last_t = 0) then throw ZeroDivisionError else mret tt);;
     let steps_per_s := Qc_of_Z (step - last_step) / (t_now - last_t) in
     old ← get steps_p_s;
     let steps_per_s :=
       match (old : option Qc) with
       | None => steps_per_s
       | Some p => (steps_per_s + p) / (1 + 1)
       end in
     modify (set_steps_p_s (Some steps_per_s));;
     modify (set_step_last_log step)
   else mret tt);;
  modify (set_t_last_log t_now).

(** [StatsRecorder.log_stats], without the lines it writes to the logger. *)
Definition log_stats (t : Z) (t_now : Qc) : M unit :=
  _compute_runtime_stats t t_now.

(** The dictionary a call of [_compute_runtime_stats] leaves behind, from
    the previous dictionary and the episode data. *)
Definition updated (self : StatsRecorder) (rews : list pyfloat) (lens : list Z)
    (st : stats) : stats :=
  {| mean_ep_rew := _stats_mean self rews;
     mean_ep_len := _stats_mean self (of_int <$> lens);
     best_mean_rew := py_max (best_mean_rew st) (_stats_mean self rews);
     best_ep_rew := py_max (best_ep_rew st) (_stats_max rews (ep_last_stats st));
     ep_last_stats := Z.of_nat (length rews) |}.

(** The public calls on a recorder after [define_log_info] has run. *)
Inductive call :=
| call_mode_setter (mode : string)
| call_before_step
| call_after_step (reward : pyfloat) (done : bool)
| call_before_reset
| call_after_reset
| call_close
| call_compute_runtime_stats (step : Z) (t_now : Qc)
| call_log_stats (t : Z) (t_now : Qc).

Definition run_call (c : call) : M unit :=
  match c with
  | call_mode_setter mode => mode_setter mode
  | call_before_step => before_step
  | call_after_step reward done => after_step reward done
  | call_before_reset => before_reset
  | call_after_reset => after_reset
  | call_close => close
  | call_compute_runtime_stats step t_now => _compute_runtime_stats step t_now
  | call_log_stats t t_now => log_stats t t_now
  end.

(** The recorder after a sequence of calls; a call that raises leaves the
    recorder as it was at the raise, and the caller goes on. *)
Definition run (cs : list call) (s : StatsRecorder) : StatsRecorder :=
  foldl (fun s c => (run_call c s).2) s cs.

(** [a <= b] on recorded values: [b] is [a] itself or [b > a]. *)
Definition fle (a b : pyfloat) : Prop := a = b ∨ fgt b a = true.

(** [StatsRecorder.get_mean_ep_rew]. *)
Definition get_mean_ep_rew : M pyfloat :=
  get (fun self => _stats_mean self (train_ep_rews self)).

(** A value of the summary dictionary of [save]. *)
Inductive json :=
| json_int (n : Z)
| json_float (q : Qc)
| json_null.

(** What [save] hands to a file: the dictionary given to [json.dump], or
    the [float32] array given to [np.save]. *)
Inductive content :=
| json_dump (data : list (string * json))
| np_save (data : list pyfloat).

(** A file written through [atomic_write]; the path
    [os.path.join(self.log_dir, name)] is kept as its two parts. *)
Record written := {
  dir : string;
  name : string;
  body : content;
}.

(** [StatsRecorder.save]: the files it writes, in the order it writes
    them.  The recorder itself is not changed. *)
Definition save (self : StatsRecorder) : list written :=
  if disabled self then []
  else
    let data :=
      [ ("total_env_steps", json_int (env_steps self));
        ("train_steps", json_int (train_steps self));
        ("train_episodes", json_int (Z.of_nat (length (train_ep_rews self))));
        ("eval_steps", json_int (eval_steps self));
        ("eval_episodes", json_int (Z.of_nat (length (eval_ep_rews self))));
        ("steps_per_s",
         match steps_p_s self with
         | Some v => json_float v
         | None => json_null
         end) ] in
    [ {| dir := log_dir self; name := "stats_summary.json";
         body := json_dump data |} ]
    ++ (match train_ep_rews self with
        | [] => []
        | _ => [ {| dir := log_dir self; name := "train_ep_rews.npy";
                    body := np_save (train_ep_rews self) |} ]
        end)
    ++ (match eval_ep_rews self with
        | [] => []
        | _ => [ {| dir := log_dir self; name := "eval_ep_rews.npy";
                    body := np_save (eval_ep_rews self) |} ]
        end).

(** What the recorder holds about finished episodes of one mode: the
    number of steps, the episode lengths and the episode rewards. *)
Definition recorded (train : bool) (s : StatsRecorder)
  : Z * list Z * list pyfloat :=
  if train then (train_steps s, train_ep_lens s, train_ep_rews s)
  else (eval_steps s, eval_ep_lens s, eval_ep_rews s).

(** One episode as the monitor reports it: a reset, the steps before the
    last one, and the last step, which carries [done]. *)
Definition episode (rs : list pyfloat) (r : pyfloat) : list call :=
  call_after_reset :: ((fun r => call_after_step r false) <$> rs)
  ++ [call_after_step r true].

(** The same episode with the mode set to [m] after the first [rs1]
    steps. *)
Definition episode_switching (rs1 : list pyfloat) (m : string)
    (rs2 : list pyfloat) (r : pyfloat) : list call :=
  call_after_reset :: ((fun r => call_after_step r false) <$> rs1)
  ++ call_mode_setter m :: ((fun r => call_after_step r false) <$> rs2)
  ++ [call_after_step r true].

(** A float that is not not-a-number. *)
Definition is_number (a : pyfloat) : Prop := a ≠ nan.

(** The largest of a list of rewards, [-inf] for none. *)
Definition largest (data : list pyfloat) : pyfloat := foldr py_max ninf data.

End StatsRecorder.

(** ** The target computation, stage by stage

    The stages of [_compute_target] as functions of their own.  Both
    classes are shown below to be the composition of these stages. *)

Module Target.
Import Tensor C51.

(** The expectation of one action's distribution: the mass-weighted sum of
    the atoms. *)
Definition expected_value (self : C51) (z : list Qc) : Qc :=
  reduce_sum (zip_with Qcmult z (bins self)).

(** The distribution of the chosen action in every sample. *)
Definition select (self : C51) (target_z : list (list (list Qc)))
    (target_act : list nat) : list (list Qc) :=
  zip_with
    (fun z m => reduce_sum_axis1 (N self)
                  (zip_with (fun za ma => (fun p => p * ma) <$> za) z m))
    target_z (one_hot (n_actions self) <$> target_act).

(** The same for one sample: the rows of [z] times the one-hot mask of
    action [a], summed over the actions. *)
Definition select_row (self : C51) (z : list (list Qc)) (a : nat) : list Qc :=
  reduce_sum_axis1 (N self)
    (zip_with (fun za ma => (fun p => p * ma) <$> za) z (one_hot (n_actions self) a)).

(** A batch of network outputs of shape [[batch, n_actions, N]] whose every
    row of masses sums to 1. *)
Definition normalised (self : C51) (net : list (list (list Qc))) : Prop :=
  Forall (fun z => length z = n_actions self
                   ∧ Forall (fun p => length p = N self ∧ reduce_sum p = 1) z) net.

(** The shifted atoms [Tz] of one sample, before and after clipping. *)
Definition shifted (self : C51) (r : Qc) (d : bool) : list Qc :=
  (fun b => r + gamma self * cast_not d * b) <$> bins self.

Definition clipped (self : C51) (r : Qc) (d : bool) : list Qc :=
  (fun t => clip_by_value t (V_min self) (V_max self)) <$> shifted self r d.

(** The bin coordinates [b] of one sample. *)
Definition coords (self : C51) (r : Qc) (d : bool) : list Qc :=
  (fun t => (t - V_min self) / dz self) <$> clipped self r d.

(** The masses sent to the lower and to the upper bin. *)
Definition lo_add (self : C51) (r : Qc) (d : bool) (tz : list Qc) : list Qc :=
  zip_with Qcmult tz (zip_with Qcminus (ceil <$> coords self r d) (coords self r d)).

Definition hi_add (self : C51) (r : Qc) (d : bool) (tz : list Qc) : list Qc :=
  zip_with Qcmult tz (zip_with Qcminus (coords self r d) (floor <$> coords self r d)).

(** The accumulation of the updates of one row. *)
Definition add_row (row : list Qc) (c : Z) (u : Qc) : option (list Qc) :=
  if decide (0 ≤ c)%Z then
    v ← row !! Z.to_nat c;
    Some (<[Z.to_nat c := v + u]> row)
  else None.

Definition scatter_row (row : list Qc) (cols : list Z) (upd : list Qc)
  : option (list Qc) :=
  foldl (fun acc cu => acc ≫= fun t => add_row t cu.1 cu.2)
        (Some row) (zip cols upd).

(** Lines 89 to 126 of [C51._compute_target], which are lines 193 to 227
    of [C51TS._compute_target]: the projection of a batch once the
    distribution [target_z] of the bootstrap action has been selected. *)
Definition project (self : C51) (ph : placeholders) (target_z : list (list Qc))
  : option (list (list Qc)) :=
  let done_mask := cast_not <$> done_ph ph in
  let rew_t := rew_t_ph ph in
  let target_bins :=
    zip_with (fun r m => (fun b => r + gamma self * m * b) <$> bins self)
             rew_t done_mask in
  let target_bins :=
    (fmap (fun t => clip_by_value t (V_min self) (V_max self))) <$> target_bins in
  let bin_inds := (fmap (fun t => (t - V_min self) / dz self)) <$> target_bins in
  let bin_inds_lo := (fmap floor) <$> bin_inds in
  let bin_inds_hi := (fmap ceil) <$> bin_inds in
  let lo_add :=
    zip_with (zip_with Qcmult) target_z
             (zip_with (zip_with Qcminus) bin_inds_hi bin_inds) in
  let hi_add :=
    zip_with (zip_with Qcmult) target_z
             (zip_with (zip_with Qcminus) bin_inds bin_inds_lo) in
  let zeros := (fmap (fun _ => 0)) <$> target_bins in
  let target_z := zeros in
  let batch := length (done_ph ph) in
  let row_inds := (fun r => replicate (N self) r) <$> seq 0 batch in
  let bin_inds_lo :=
    zip_with (zip_with pair) row_inds ((fmap to_int32) <$> bin_inds_lo) in
  let bin_inds_hi :=
    zip_with (zip_with pair) row_inds ((fmap to_int32) <$> bin_inds_hi) in
  target_z ← scatter_nd_add target_z bin_inds_lo lo_add;
  target_z ← scatter_nd_add target_z bin_inds_hi hi_add;
  Some target_z.

(** The projection of one sample. *)
Definition project_row (self : C51) (r : Qc) (d : bool) (tz : list Qc)
  : option (list Qc) :=
  let b := coords self r d in
  row ← scatter_row ((fun _ => 0) <$> clipped self r d)
                    (to_int32 <$> (floor <$> b)) (lo_add self r d tz);
  scatter_row row (to_int32 <$> (ceil <$> b)) (hi_add self r d tz).

(** The share of an atom's mass that the two updates carry together:
    [(hi - b) + (b - lo)]. *)
Definition carried (b : Qc) : Qc := ceil b - floor b.

(** A support as [C51.__init__] builds it from [V_min < V_max] and at
    least two atoms. *)
Definition proper_support (self : C51) : Prop :=
  V_min self < V_max self
  ∧ (2 ≤ N self)%nat
  ∧ dz self = (V_max self - V_min self) / Qc_of_Z (Z.of_nat (N self) - 1).

(** The total mass of the selected row of a normalised network output. *)
Definition selected_mass (self : C51) : Qc :=
  if decide (n_actions self = 0%nat) then 0 else 1.

(** The bin coordinate of a terminal transition: the clipped reward alone. *)
Definition terminal_coord (self : C51) (r : Qc) : Qc :=
  (clip_by_value r (V_min self) (V_max self) - V_min self) / dz self.

(** The row a terminal transition of reward [r] is projected to, for a
    bootstrap distribution of total mass [mass]. *)
Definition terminal_row (self : C51) (r : Qc) (mass : Qc) : option (list Qc) :=
  let b := terminal_coord self r in
  if decide (N self = 0%nat) then Some []
  else
    row ← add_row (replicate (N self) 0) (to_int32 (floor b)) (mass * (ceil b - b));
    add_row row (to_int32 (ceil b)) (mass * (b - floor b)).

(** A batch of network outputs of shape [[batch, n_actions, N]]. *)
Definition well_shaped (self : C51) (net : list (list (list Qc))) : Prop :=
  Forall (fun z => length z = n_actions self
                   ∧ Forall (fun p => length p = N self) z) net.

(** A batch of network outputs without negative masses. *)
Definition nonnegative (net : list (list (list Qc))) : Prop :=
  Forall (Forall (Forall (fun p => 0 ≤ p))) net.

End Target.

(** ** Acting: largest entries and sampled bins *)

Module Acting.
Import Tensor C51.

(** [i] is the index of the first largest entry of [l]. *)
Definition first_max (l : list Qc) (i : nat) : Prop :=
  ∃ v, l !! i = Some v
       ∧ (forall j w, l !! j = Some w → w ≤ v)
       ∧ (forall j w, (j < i)%nat → l !! j = Some w → w < v).

(** The bin index [C51TS._act_train] samples for one action: the exclusive
    CDF [c] of the masses [p], shifted down by 2 where it exceeds the draw
    [u], and the index of the first largest entry of the result. *)
Definition sampled_bin (u : Qc) (p : list Qc) : nat :=
  let cdf := cumsum_exclusive p in
  let offset := (fun x => if decide (x ≤ u) then 0 else frac (-2) 1 * 1) <$> cdf in
  argmax (zip_with Qcplus cdf offset).

(** The mass before bin [i]: entry [i] of the exclusive CDF. *)
Definition mass_before (p : list Qc) (i : nat) : Qc := reduce_sum (take i p).

End Acting.

(** ** Instances used in the examples *)

Module Examples.
Import Tensor C51.

(** [N = 3] atoms on [[0, 2]], one action. *)
Definition model3 (g : Qc) : C51 :=
  {| n_actions := 1; gamma := g; N := 3;
     V_min := 0; V_max := frac 2 1; dz := 1 |}.

(** The same support with two actions. *)
Definition model3x2 (g : Qc) : C51 :=
  {| n_actions := 2; gamma := g; N := 3;
     V_min := 0; V_max := frac 2 1; dz := 1 |}.

Definition batch1 (r : Qc) (d : bool) : placeholders :=
  {| rew_t_ph := [r]; done_ph := [d] |}.

(** An agent over a two-action environment whose network always answers
    action 1, with a constant exploration rate. *)
Definition agent2 (eps : Qc) : AgentDQN.AgentDQN unit unit :=
  {| AgentDQN.env_train :=
       {| AgentDQN.observation_space := AgentDQN.Box [84; 84; 1]%nat;
          AgentDQN.action_space := AgentDQN.Discrete 2 |};
     AgentDQN.exploration := fun _ => eps;
     AgentDQN.epsilon_eval := frac 1 1000;
     AgentDQN.update_target_freq := 10000;
     AgentDQN.model :=
       {| AgentDQN.action_train := fun _ => 1%nat;
          AgentDQN.action_eval := fun _ => 1%nat |};
     AgentDQN.replay_buf := tt |}.

(** Random sources that draw [u] and sample action 0. *)
Definition world0 (u : Qc) : AgentDQN.world :=
  {| AgentDQN.uniform := fun _ => u; AgentDQN.uniform_pos := 0;
     AgentDQN.space_sample := fun _ => 0%nat; AgentDQN.space_pos := 0 |}.

(** An environment with a discrete observation space. *)
Definition discrete_env : AgentDQN.env :=
  {| AgentDQN.observation_space := AgentDQN.Discrete 16;
     AgentDQN.action_space := AgentDQN.Discrete 4 |}.

(** A recorder right after construction in mode [m], on an existing
    directory, and after [define_log_info]. *)
Definition recorder0 (m : string) : StatsRecorder.StatsRecorder :=
  {| StatsRecorder.log_dir := "logs";
     StatsRecorder.n_ep_stats := 100;
     StatsRecorder.steps_p_s := None;
     StatsRecorder.t_last_log := 0;
     StatsRecorder.step_last_log := 0;
     StatsRecorder.train_ep_rews := [];
     StatsRecorder.train_ep_lens := [];
     StatsRecorder.train_steps := 0;
     StatsRecorder.train_stats := None;
     StatsRecorder.eval_ep_rews := [];
     StatsRecorder.eval_ep_lens := [];
     StatsRecorder.eval_steps := 0;
     StatsRecorder.eval_stats := None;
     StatsRecorder.ep_reward := None;
     StatsRecorder.ep_steps := None;
     StatsRecorder.env_steps := 0;
     StatsRecorder.disabled := false;
     StatsRecorder._mode := m |}.

Definition recorder1 (m : string) : StatsRecorder.StatsRecorder :=
  (StatsRecorder.define_log_info (recorder0 m)).2.

(** Two training episodes, of rewards 3 and 1, each followed by a log. *)
Definition two_episodes : list StatsRecorder.call :=
  [ StatsRecorder.call_after_reset;
    StatsRecorder.call_after_step (StatsRecorder.fin (frac 3 1)) true;
    StatsRecorder.call_log_stats 1 1;
    StatsRecorder.call_after_reset;
    StatsRecorder.call_after_step (StatsRecorder.fin 1) true;
    StatsRecorder.call_log_stats 2 (frac 2 1) ].

(** A training recorder holding three finished episodes, of rewards 3, 1
    and 5, whose statistics were last computed after the second one. *)
Definition recorder_logged : StatsRecorder.StatsRecorder :=
  StatsRecorder.set_train_ep_rews
    [StatsRecorder.fin (frac 3 1); StatsRecorder.fin 1; StatsRecorder.fin (frac 5 1)]
    (StatsRecorder.set_train_ep_lens [1; 1; 1]%Z
       (StatsRecorder.set_train_stats
          (Some (StatsRecorder.set_best_ep_rew (StatsRecorder.fin (frac 3 1))
                   (StatsRecorder.set_ep_last_stats 2 StatsRecorder.fresh_stats)))
          (recorder1 "t"))).

(** An environment whose action space is not discrete. *)
Definition multi_env : AgentDQN.env :=
  {| AgentDQN.observation_space := AgentDQN.Box [84; 84; 1]%nat;
     AgentDQN.action_space := AgentDQN.MultiDiscrete [3; 3]%nat |}.

End Examples.

(** * Properties *)

Import Tensor C51 Target Examples.

(** Closed equations between rationals, and between tensors of rationals,
    are decided by evaluation. *)
Ltac by_evaluation := apply (bool_decide_unpack _); vm_compute; exact I.

Lemma model3_init g :
  C51.__init__ (inr {| base_n_actions := 1; base_gamma := g |}) 0 (frac 2 1) 3
  = inr (model3 g).
Proof.
  unfold C51.__init__, model3; simpl. do 2 f_equal. by_evaluation.
Qed.

Lemma model3_proper g : proper_support (model3 g).
Proof.
  split; [|split].
  - by_evaluation.
  - simpl. lia.
  - by_evaluation.
Qed.

(** ** The two classes are compositions of the stages *)

Lemma C51_compute_target_stages self ph target_net :
  C51._compute_target self ph target_net
  = project self ph
      (select self target_net (argmax <$> (fmap (expected_value self) <$> target_net))).
Proof. reflexivity. Qed.

Lemma C51TS_compute_target_stages self ph agent_z target_net :
  C51TS._compute_target self ph agent_z target_net
  = project self ph
      (select self target_net
         (argmax <$> (fmap (fun z => reduce_mean (zip_with Qcmult z (bins self)))
                        <$> agent_z))).
Proof. reflexivity. Qed.

(** ** [scatter_nd_add] works row by row *)

Section scatter.

Let step (acc : option (list (list Qc))) (iu : nat * Z * Qc) :=
  acc ≫= fun t => add_at t iu.1 iu.2.

Lemma foldl_step_None l : foldl step None l = None.
Proof. induction l; simpl; auto. Qed.

Lemma add_at_middle pre row suf c u :
  add_at (pre ++ row :: suf) (length pre, c) u
  = (fun row' => pre ++ row' :: suf) <$> add_row row c u.
Proof.
  unfold add_at, add_row; simpl.
  rewrite list_lookup_middle by done; simpl.
  destruct (decide (0 ≤ c)%Z); [|done].
  destruct (row !! Z.to_nat c) as [v|]; simpl; [|done].
  f_equal. replace (length pre) with (length pre + 0)%nat at 1 by lia.
  by rewrite insert_app_r.
Qed.

Lemma scatter_one_row pre suf cs : forall row us,
  foldl step (Some (pre ++ row :: suf)) (zip (pair (length pre) <$> cs) us)
  = (fun row' => pre ++ row' :: suf) <$> scatter_row row cs us.
Proof.
  unfold scatter_row.
  induction cs as [|c cs IH]; intros row [|u us]; simpl; try done.
  rewrite add_at_middle.
  destruct (add_row row c u) as [row'|]; simpl.
  - apply IH.
  - rewrite foldl_step_None.
    clear. induction (zip cs us); simpl; auto.
Qed.

Lemma zip_with_pair_replicate {A} n (r : nat) (cs : list A) :
  (length cs ≤ n)%nat → zip_with pair (replicate n r) cs = pair r <$> cs.
Proof.
  revert n. induction cs as [|c cs IH]; intros [|n] ?; simpl in *; try done; try lia.
  f_equal. apply IH. lia.
Qed.

Lemma scatter_rows_from n (rows : list (list Qc * list Z * list Qc)) : forall pre,
  Forall (fun x => length x.1.2 ≤ n)%nat rows →
  foldl step (Some (pre ++ ((fun x => x.1.1) <$> rows)))
    (concat (zip_with zip
       (zip_with (zip_with pair)
          ((fun r => replicate n r) <$> seq (length pre) (length rows))
          ((fun x => x.1.2) <$> rows))
       (snd <$> rows)))
  = (app pre) <$> mapM (fun x => scatter_row x.1.1 x.1.2 x.2) rows.
Proof.
  induction rows as [|[[row cs] us] rows IH]; intros pre Hn; csimpl.
  - by rewrite app_nil_r.
  - apply Forall_cons in Hn as [Hcs Hn]; csimpl in Hcs.
    rewrite foldl_app, zip_with_pair_replicate by done.
    rewrite scatter_one_row.
    destruct (scatter_row row cs us) as [row'|]; csimpl.
    + specialize (IH (pre ++ [row'])).
      rewrite length_app in IH; csimpl in IH.
      replace (length pre + 1)%nat with (S (length pre)) in IH by lia.
      rewrite <-app_assoc in IH; csimpl in IH.
      rewrite IH by done.
      destruct (mapM _ rows); csimpl; [|done].
      by rewrite <-app_assoc.
    + apply foldl_step_None.
Qed.

Lemma scatter_nd_add_rows n (rows : list (list Qc * list Z * list Qc)) :
  Forall (fun x => length x.1.2 ≤ n)%nat rows →
  scatter_nd_add ((fun x => x.1.1) <$> rows)
    (zip_with (zip_with pair)
       ((fun r => replicate n r) <$> seq 0 (length rows))
       ((fun x => x.1.2) <$> rows))
    (snd <$> rows)
  = mapM (fun x => scatter_row x.1.1 x.1.2 x.2) rows.
Proof.
  intros Hn. unfold scatter_nd_add.
  pose proof (scatter_rows_from n rows [] Hn) as H; simpl in H.
  unfold step in H. rewrite H.
  by destruct (mapM _ rows).
Qed.

End scatter.

(** ** The projection of a batch is the projection of its samples *)

Lemma zip_with_diag {S A B C} (f : A → B → C) (a : S → A) (b : S → B) (l : list S) :
  zip_with f (a <$> l) (b <$> l) = (fun s => f (a s) (b s)) <$> l.
Proof. induction l; csimpl; congruence. Qed.

Lemma zip_with_diag_r {A B C} (f : A → B → C) (a : B → A) (l : list B) :
  zip_with f (a <$> l) l = (fun s => f (a s) s) <$> l.
Proof. induction l; csimpl; congruence. Qed.

Lemma mapM_fmap {A B C} (f : B → option C) (g : A → B) (l : list A) :
  mapM f (g <$> l) = mapM (fun x => f (g x)) l.
Proof. induction l as [|a l IH]; [done|]. simpl. fold (g <$> l). by rewrite IH. Qed.

Lemma mapM_bind_zip {A B C} (g : A → option B) (h : A → B → option C) (l : list A) :
  mapM g l ≫= (fun t => mapM (fun x => h x.2 x.1) (zip t l))
  = mapM (fun s => g s ≫= h s) l.
Proof.
  induction l as [|s l IH]; [done|].
  cbn [mapM]. rewrite <-IH. clear IH.
  destruct (g s) as [y|]; [|done].
  destruct (mapM g l) as [t|]; cbn.
  - done.
  - by destruct (h s y).
Qed.

Lemma scatter_nd_add_samples {S} n (l : list S) (ref : list (list Qc))
    (c : S → list Z) (u : S → list Qc) :
  length ref = length l → (forall s, length (c s) ≤ n)%nat →
  scatter_nd_add ref
    (zip_with (zip_with pair) ((fun r => replicate n r) <$> seq 0 (length l)) (c <$> l))
    (u <$> l)
  = mapM (fun x => scatter_row x.1 (c x.2) (u x.2)) (zip ref l).
Proof.
  intros Hlen Hn.
  pose proof (scatter_nd_add_rows n ((fun x => (x.1, c x.2, u x.2)) <$> zip ref l)) as H.
  rewrite length_fmap, length_zip_with, Hlen, Nat.min_id in H.
  rewrite <-!list_fmap_compose in H.
  rewrite mapM_fmap in H; simpl in H.
  rewrite <-H.
  - f_equal.
    + change ((fun x : list Qc * list Z * list Qc => x.1.1) ∘ _) with (@fst (list Qc) S).
      rewrite fst_zip; [done | lia].
    + f_equal. change ((fun x : list Qc * list Z * list Qc => x.1.2) ∘ _)
        with (c ∘ @snd (list Qc) S).
      rewrite list_fmap_compose, snd_zip; [done | lia].
    + change (snd ∘ _) with (u ∘ @snd (list Qc) S).
      rewrite list_fmap_compose, snd_zip; [done | lia].
  - apply Forall_fmap, Forall_forall. intros x _. simpl. apply Hn.
Qed.

Lemma project_samples self (l : list (Qc * bool * list Qc)) :
  project self {| rew_t_ph := (fun s => s.1.1) <$> l;
                  done_ph := (fun s => s.1.2) <$> l |} (snd <$> l)
  = mapM (fun s => project_row self s.1.1 s.1.2 s.2) l.
Proof.
  unfold project; simpl.
  rewrite !length_fmap.
  rewrite <-(list_fmap_compose _ cast_not).
  rewrite (zip_with_diag _ _ _ l).
  rewrite <-!list_fmap_compose.
  rewrite !zip_with_diag.
  rewrite (scatter_nd_add_samples (N self)).
  2:{ by rewrite !length_fmap. }
  2:{ intros s. unfold bins. simpl. by rewrite !length_fmap, length_seq. }
  rewrite zip_with_diag_r, mapM_fmap. simpl.
  unfold project_row.
  rewrite <-(mapM_bind_zip _
    (fun s row => scatter_row row
       (to_int32 <$> (ceil <$> coords self s.1.1 s.1.2))
       (hi_add self s.1.1 s.1.2 s.2))).
  change (mapM ?f l ≫= ?k = mapM ?g l ≫= ?k') with (mapM g l ≫= k = mapM g l ≫= k').
  destruct (mapM _ l) as [t|] eqn:Ht; simpl; [|done].
  apply length_mapM in Ht.
  rewrite (scatter_nd_add_samples (N self)).
  - by destruct (mapM _ (zip t l)).
  - done.
  - intros s. unfold bins. simpl. by rewrite !length_fmap, length_seq.
Qed.

Lemma project_rows self ph tzs :
  length (rew_t_ph ph) = length (done_ph ph) →
  length tzs = length (done_ph ph) →
  project self ph tzs
  = mapM (fun s => project_row self s.1.1 s.1.2 s.2)
         (zip (zip (rew_t_ph ph) (done_ph ph)) tzs).
Proof.
  destruct ph as [rew done]; simpl; intros Hr Ht.
  rewrite <-project_samples. f_equal.
  - f_equal.
    + symmetry. etrans; [apply (list_fmap_compose fst fst)|].
      rewrite fst_zip, fst_zip; [done | lia |].
      rewrite length_zip_with; lia.
    + symmetry. etrans; [apply (list_fmap_compose fst snd)|].
      rewrite fst_zip, snd_zip; [done | lia |].
      rewrite length_zip_with; lia.
  - rewrite snd_zip; [done|]. rewrite length_zip_with; lia.
Qed.

(** ** Selecting the distribution of an action *)

Lemma select_fmap self net (act : list (list Qc) → nat) :
  select self net (act <$> net)
  = (fun z => select_row self z (act z)) <$> net.
Proof.
  unfold select. rewrite <-list_fmap_compose.
  induction net; csimpl; [done|]. by f_equal.
Qed.

Lemma select_zip self net {A} (act : A → nat) (l : list A) :
  select self net (act <$> l)
  = zip_with (fun z x => select_row self z (act x)) net l.
Proof.
  unfold select. rewrite <-list_fmap_compose.
  by rewrite zip_with_fmap_r.
Qed.

Lemma reduce_sum_replicate_0 n : reduce_sum (replicate n 0) = 0.
Proof.
  induction n as [|n IH]; [done|].
  change (0 + reduce_sum (replicate n 0) = 0). rewrite IH. ring.
Qed.

Lemma zip_with_plus_zeros (p : list Qc) :
  zip_with Qcplus p (replicate (length p) 0) = p.
Proof. induction p; simpl; [done|]. rewrite IHp. f_equal. ring. Qed.

Lemma zip_with_zeros_plus n (p : list Qc) :
  length p = n →
  zip_with Qcplus ((fun x => x * 0) <$> p) (replicate n 0) = replicate n 0.
Proof.
  intros <-. induction p as [|x p IH]; csimpl; [done|]. rewrite IH. f_equal. ring.
Qed.

(** The masked sum over the actions [k, k+1, ...] is the row of action
    [a] when [a] is among them, and the zero row otherwise. *)
Lemma masked_sum_from n a (z : list (list Qc)) : forall k,
  Forall (fun p => length p = n) z →
  foldr (zip_with Qcplus) (replicate n 0)
    (zip_with (fun za ma => (fun p => p * ma) <$> za) z
       ((fun j => if decide (j = a) then 1 else 0) <$> seq k (length z)))
  = match decide (k ≤ a)%nat with
    | left _ => default (replicate n 0) (z !! (a - k)%nat)
    | right _ => replicate n 0
    end.
Proof.
  induction z as [|p z IH]; intros k Hz; csimpl.
  - by destruct (decide _).
  - apply Forall_cons in Hz as [Hp Hz].
    rewrite (IH (S k) Hz).
    destruct (decide (k = a)) as [->|Hne].
    + destruct (decide (S a ≤ a)%nat), (decide (a ≤ a)%nat); try lia.
      rewrite Nat.sub_diag; simpl.
      replace ((fun x => x * 1) <$> p) with p.
      * subst n. apply zip_with_plus_zeros.
      * clear. induction p; csimpl; [done|]. f_equal; [ring|done].
    + destruct (decide (S k ≤ a)%nat), (decide (k ≤ a)%nat); try lia.
      * replace (a - k)%nat with (S (a - S k)) by lia; simpl.
        destruct (z !! (a - S k)%nat) as [q|] eqn:Hq; simpl.
        -- assert (length q = n) as Hlen.
           { eapply (Forall_lookup_1 _ _ _ _ Hz Hq). }
           rewrite <-Hlen in Hp. clear -Hp.
           revert q Hp. induction p as [|y p IH]; intros [|x q] ?; simplify_eq/=; [done|].
           f_equal; [ring|by apply IH].
        -- by apply zip_with_zeros_plus.
      * by apply zip_with_zeros_plus.
Qed.

Lemma select_row_lookup self z a :
  length z = n_actions self →
  Forall (fun p => length p = N self) z →
  select_row self z a = default (replicate (N self) 0) (z !! a).
Proof.
  intros Hlen Hz. unfold select_row, reduce_sum_axis1, one_hot.
  rewrite <-Hlen, (masked_sum_from _ _ _ 0%nat Hz).
  rewrite decide_True by lia. by rewrite Nat.sub_0_r.
Qed.

Lemma argmax_from_lt x : forall i b bi,
  (bi < i)%nat → (argmax_from bi b i x < i + length x)%nat.
Proof.
  induction x as [|v x IH]; intros i b bi Hb; simpl; [lia|].
  destruct (decide (b < v)).
  - specialize (IH (S i) v i). lia.
  - specialize (IH (S i) b bi). lia.
Qed.

Lemma argmax_lt x : x ≠ [] → (argmax x < length x)%nat.
Proof.
  destruct x as [|v x]; [done|]. intros _. simpl.
  pose proof (argmax_from_lt x 1 v 0). lia.
Qed.

(** The row selected in a normalised sample has [N] entries, and its mass
    is 1 as soon as there is an action at all. *)
Lemma select_row_normalised self z (q : list Qc) :
  length z = n_actions self →
  Forall (fun p => length p = N self ∧ reduce_sum p = 1) z →
  length q = length z →
  length (select_row self z (argmax q)) = N self
  ∧ reduce_sum (select_row self z (argmax q))
    = if decide (n_actions self = 0%nat) then 0 else 1.
Proof.
  intros Hlen Hz Hq.
  rewrite select_row_lookup; [|done|].
  2:{ eapply Forall_impl; [exact Hz|]. by intros ? [? _]. }
  destruct (z !! argmax q) as [p|] eqn:Hp; simpl.
  - destruct (Forall_lookup_1 _ _ _ _ Hz Hp) as [? ?].
    apply lookup_lt_Some in Hp.
    rewrite decide_False by lia. done.
  - rewrite length_replicate, reduce_sum_replicate_0. split; [done|].
    apply lookup_ge_None in Hp.
    destruct (decide (q = [])) as [->|Hne].
    + simpl in Hq. rewrite decide_True by lia. done.
    + apply argmax_lt in Hne. lia.
Qed.

(** ** Terminal transitions *)

Lemma fmap_const_replicate {A B} (c : B) (l : list A) :
  (fun _ => c) <$> l = replicate (length l) c.
Proof. induction l; csimpl; congruence. Qed.

Lemma zip_with_replicate_2 {A B C} (f : A → B → C) n x y :
  zip_with f (replicate n x) (replicate n y) = replicate n (f x y).
Proof. induction n; simpl; congruence. Qed.

Lemma zip_with_mult_replicate (tz : list Qc) c :
  zip_with Qcmult tz (replicate (length tz) c) = (fun p => p * c) <$> tz.
Proof. induction tz; csimpl; congruence. Qed.

Lemma reduce_sum_scale (tz : list Qc) c :
  reduce_sum ((fun p => p * c) <$> tz) = reduce_sum tz * c.
Proof.
  induction tz as [|p tz IH]; csimpl; [ring|].
  change (p * c + reduce_sum ((fun p => p * c) <$> tz) = (p + reduce_sum tz) * c).
  rewrite IH. ring.
Qed.

Lemma length_bins self : length (bins self) = N self.
Proof. unfold bins. by rewrite length_fmap, length_seq. Qed.

Lemma shifted_done self r : shifted self r true = replicate (N self) r.
Proof.
  unfold shifted, cast_not; simpl.
  rewrite <-(length_bins self), <-fmap_const_replicate.
  apply list_fmap_ext. intros _ b _. ring.
Qed.

Lemma clipped_done self r :
  clipped self r true
  = replicate (N self) (clip_by_value r (V_min self) (V_max self)).
Proof. unfold clipped. by rewrite shifted_done, fmap_replicate. Qed.

Lemma coords_done self r :
  coords self r true = replicate (N self) (terminal_coord self r).
Proof. unfold coords. by rewrite clipped_done, fmap_replicate. Qed.

Lemma add_row_None_mass row k u u' : add_row row k u = None → add_row row k u' = None.
Proof.
  unfold add_row. destruct (decide _); [|done].
  by destruct (row !! Z.to_nat k).
Qed.

Lemma foldl_add_row_None (l : list (Z * Qc)) :
  foldl (fun acc cu => acc ≫= fun t => add_row t cu.1 cu.2) None l = None.
Proof. induction l; simpl; auto. Qed.

(** Updates that all go to the same bin add up to one update. *)
Lemma scatter_row_const k us : forall row,
  scatter_row row (replicate (length us) k) us
  = match us with
    | [] => Some row
    | _ => add_row row k (reduce_sum us)
    end.
Proof.
  unfold scatter_row.
  induction us as [|u us IH]; intros row; [done|].
  simpl. destruct (add_row row k u) as [row1|] eqn:H1.
  - rewrite IH. unfold add_row in H1 |- *.
    destruct (decide (0 ≤ k)%Z); [|done].
    destruct (row !! Z.to_nat k) as [v|] eqn:Hv; simplify_eq/=.
    destruct us as [|u' us].
    + do 2 f_equal. change (v + u = v + (u + 0)). ring.
    + rewrite list_lookup_insert_eq by (by eapply lookup_lt_Some).
      simpl. rewrite list_insert_insert_eq. do 2 f_equal.
      change (v + u + reduce_sum (u' :: us) = v + (u + reduce_sum (u' :: us))). ring.
  - rewrite foldl_add_row_None. symmetry. by eapply add_row_None_mass.
Qed.

Lemma scatter_row_const_cons k us row :
  us ≠ [] →
  scatter_row row (replicate (length us) k) us = add_row row k (reduce_sum us).
Proof. intros Hne. rewrite scatter_row_const. by destruct us. Qed.

(** The projection of a terminal transition reads the bootstrap
    distribution only through its total mass. *)
Lemma project_row_done self r tz :
  length tz = N self →
  project_row self r true tz = terminal_row self r (reduce_sum tz).
Proof.
  intros Hlen. unfold project_row, terminal_row, lo_add, hi_add.
  rewrite coords_done, clipped_done, !fmap_replicate, !zip_with_replicate_2.
  rewrite <-Hlen, !zip_with_mult_replicate.
  rewrite <-(length_fmap (fun p => p * (ceil (terminal_coord self r) - terminal_coord self r)) tz) at 2.
  destruct tz as [|p tz]; [done|].
  rewrite decide_False by done.
  rewrite scatter_row_const_cons, reduce_sum_scale by done.
  apply option_bind_ext_fun. intros row.
  rewrite <-(length_fmap (fun p => p * (terminal_coord self r - floor (terminal_coord self r))) (p :: tz)).
  by rewrite scatter_row_const_cons, reduce_sum_scale.
Qed.

Lemma terminal_samples self (act : list (list Qc) → list Qc) : forall rew dn net,
  (forall z, length (act z) = length z) →
  length rew = length dn → length net = length dn →
  Forall (fun d => d = true) dn →
  normalised self net →
  mapM (fun s => project_row self s.1.1 s.1.2 s.2)
       (zip (zip rew dn) ((fun z => select_row self z (argmax (act z))) <$> net))
  = mapM (fun r => terminal_row self r (selected_mass self)) rew.
Proof.
  intros rew dn net Hact. revert dn net.
  induction rew as [|r rew IH]; intros [|d dn] [|z net] Hr Hn Hd Hnet;
    simplify_eq/=; [done|].
  apply Forall_cons in Hd as [-> Hd].
  apply Forall_cons in Hnet as [[Hz Hrows] Hnet].
  destruct (select_row_normalised self z (act z) Hz Hrows (Hact z)) as [Hlen Hsum].
  rewrite project_row_done by done.
  rewrite Hsum. fold (selected_mass self).
  fold (fmap (M:=list) (fun z => select_row self z (argmax (act z))) net).
  by rewrite IH.
Qed.

(** On a batch of terminal transitions the target is a function of the
    rewards alone. *)
Lemma C51_compute_target_done self ph net :
  Forall (fun d => d = true) (done_ph ph) →
  length (rew_t_ph ph) = length (done_ph ph) →
  length net = length (done_ph ph) →
  normalised self net →
  C51._compute_target self ph net
  = mapM (fun r => terminal_row self r (selected_mass self)) (rew_t_ph ph).
Proof.
  intros Hd Hr Hn Hnet.
  rewrite C51_compute_target_stages.
  rewrite <-list_fmap_compose, select_fmap.
  rewrite project_rows; [|done|by rewrite length_fmap].
  apply (terminal_samples self (fmap (expected_value self))); try done.
  intros z. by rewrite length_fmap.
Qed.

(** C4.  Two runs of [_compute_target] on the same batch of terminal
    transitions ([done = True] everywhere, the same rewards) return the
    same rows, whatever the two normalised bootstrap distributions are. *)
Theorem C4_done_target_independent_of_bootstrap self ph net net' :
  Forall (fun d => d = true) (done_ph ph) →
  length (rew_t_ph ph) = length (done_ph ph) →
  length net = length (done_ph ph) →
  length net' = length (done_ph ph) →
  normalised self net →
  normalised self net' →
  C51._compute_target self ph net = C51._compute_target self ph net'.
Proof.
  intros. by rewrite !C51_compute_target_done.
Qed.

Lemma C4_witness :
  C51._compute_target (model3 1) (batch1 (frac 1 2) true) [[[0; 1; 0]]]
  = C51._compute_target (model3 1) (batch1 (frac 1 2) true)
      [[[frac 1 4; frac 1 2; frac 1 4]]].
Proof.
  apply C4_done_target_independent_of_bootstrap.
  - repeat constructor.
  - reflexivity.
  - reflexivity.
  - reflexivity.
  - repeat constructor.
  - repeat constructor. by_evaluation.
Defined.

(** ** The action of the double-network variant *)

Lemma argmax_from_scale c x : forall i b bi,
  0 < c →
  argmax_from bi (b * c) i ((fun v => v * c) <$> x) = argmax_from bi b i x.
Proof.
  induction x as [|v x IH]; intros i b bi Hc; csimpl; [done|].
  destruct (decide (b < v)) as [Hlt|Hge].
  - rewrite decide_True by (by apply Qcmult_lt_compat_r). by apply IH.
  - rewrite decide_False; [by apply IH|].
    apply Qcle_not_lt, Qcmult_le_compat_r.
    + by apply Qcnot_lt_le.
    + by apply Qclt_le_weak.
Qed.

Lemma argmax_scale c x : 0 < c → argmax ((fun v => v * c) <$> x) = argmax x.
Proof. destruct x as [|v x]; [done|]. intros. by apply argmax_from_scale. Qed.

(** On rows of [N] masses the mean over the atoms and the sum over the
    atoms are largest at the same action. *)
Lemma argmax_mean_sum self (z : list (list Qc)) :
  Forall (fun p => length p = N self) z →
  argmax ((fun p => reduce_mean (zip_with Qcmult p (bins self))) <$> z)
  = argmax (expected_value self <$> z).
Proof.
  intros Hz. destruct (decide (N self = 0%nat)) as [H0|H0].
  - f_equal. apply Forall_fmap_ext_1. eapply Forall_impl; [exact Hz|].
    intros p Hp; simpl in Hp. rewrite H0 in Hp.
    apply nil_length_inv in Hp as ->. unfold expected_value. by_evaluation.
  - rewrite <-(argmax_scale (/ Qc_of_Z (Z.of_nat (N self))) (expected_value self <$> z)).
    + f_equal. rewrite <-list_fmap_compose.
      apply Forall_fmap_ext_1. eapply Forall_impl; [exact Hz|].
      intros p Hp; simpl in *. unfold reduce_mean, expected_value.
      by rewrite length_zip_with, Hp, length_bins, Nat.min_id.
    + apply Qcinv_pos. rewrite <-Z2Qc_inj_0. apply (proj1 (Z2Qc_inj_lt 0 (Z.of_nat (N self)))). lia.
Qed.

(** C6.  [C51TS._compute_target] bootstraps from the action with the
    largest expected value (mass-weighted atom sum) under the online
    network [agent_z], [C51._compute_target] from the action with the
    largest expected value under the target network itself; after that
    both run the same projection [project] on the target network's
    distribution for the selected action. *)
Theorem C6_double_variant_selects_with_online_net self ph agent_z target_net :
  Forall (Forall (fun p => length p = N self)) agent_z →
  C51TS._compute_target self ph agent_z target_net
  = project self ph
      (select self target_net (argmax <$> (fmap (expected_value self) <$> agent_z)))
  ∧ C51._compute_target self ph target_net
    = project self ph
        (select self target_net (argmax <$> (fmap (expected_value self) <$> target_net))).
Proof.
  intros Hshape. split; [|apply C51_compute_target_stages].
  rewrite C51TS_compute_target_stages. do 2 f_equal.
  rewrite <-!list_fmap_compose.
  apply Forall_fmap_ext_1. eapply Forall_impl; [exact Hshape|].
  intros z Hz. by apply argmax_mean_sum.
Qed.

Lemma C6_witness :
  C51TS._compute_target (model3x2 1) (batch1 0 false)
    [[[1; 0; 0]; [0; 0; 1]]] [[[0; 0; 1]; [0; 1; 0]]]
  = project (model3x2 1) (batch1 0 false)
      (select (model3x2 1) [[[0; 0; 1]; [0; 1; 0]]]
         (argmax <$> (fmap (expected_value (model3x2 1)) <$> [[[1; 0; 0]; [0; 0; 1]]])))
  ∧ C51._compute_target (model3x2 1) (batch1 0 false) [[[0; 0; 1]; [0; 1; 0]]]
    = project (model3x2 1) (batch1 0 false)
        (select (model3x2 1) [[[0; 0; 1]; [0; 1; 0]]]
           (argmax <$> (fmap (expected_value (model3x2 1)) <$> [[[0; 0; 1]; [0; 1; 0]]]))).
Proof.
  apply C6_double_variant_selects_with_online_net.
  repeat constructor.
Defined.

(** In this instance the online network prefers action 1 and the target
    network action 0, so the two variants bootstrap from different rows. *)
Example double_variant_selects_other_row :
  select (model3x2 1) [[[0; 0; 1]; [0; 1; 0]]]
    (argmax <$> (fmap (expected_value (model3x2 1)) <$> [[[1; 0; 0]; [0; 0; 1]]]))
  = [[0; 1; 0]]
  ∧ select (model3x2 1) [[[0; 0; 1]; [0; 1; 0]]]
      (argmax <$> (fmap (expected_value (model3x2 1)) <$> [[[0; 0; 1]; [0; 1; 0]]]))
    = [[0; 0; 1]].
Proof. split; by_evaluation. Qed.

(** ** Atoms that land on a bin *)

Lemma floor_of_Z k : floor (Qc_of_Z k) = Qc_of_Z k.
Proof. unfold floor. f_equal. apply Qfloor_Z. Qed.

Lemma ceil_of_Z k : ceil (Qc_of_Z k) = Qc_of_Z k.
Proof. unfold ceil. f_equal. apply Qceiling_Z. Qed.

(** An atom whose bin coordinate is an integer sends no mass at all:
    [hi - b] and [b - lo] are both zero. *)
Lemma integral_coordinate_sends_nothing self r d tz i p k :
  coords self r d !! i = Some (Qc_of_Z k) →
  tz !! i = Some p →
  lo_add self r d tz !! i = Some 0 ∧ hi_add self r d tz !! i = Some 0.
Proof.
  intros Hb Hp. unfold lo_add, hi_add.
  rewrite !lookup_zip_with, !list_lookup_fmap, Hb, Hp; simpl.
  rewrite floor_of_Z, ceil_of_Z. split; f_equal; ring.
Qed.

(** ** The mass of a projected row *)

Lemma reduce_sum_cons p l : reduce_sum (p :: l) = p + reduce_sum l.
Proof. done. Qed.

Lemma reduce_sum_insert_add row : forall i v u,
  row !! i = Some v →
  reduce_sum (<[i := v + u]> row) = reduce_sum row + u.
Proof.
  unfold reduce_sum.
  induction row as [|x row IH]; intros [|i] v u Hv; simplify_eq/=.
  - ring.
  - rewrite (IH _ _ _ Hv). ring.
Qed.

Lemma add_row_sum row c u row' :
  add_row row c u = Some row' →
  reduce_sum row' = reduce_sum row + u ∧ length row' = length row.
Proof.
  unfold add_row. destruct (decide _); [|done].
  destruct (row !! Z.to_nat c) as [v|] eqn:Hv; intros; simplify_eq/=.
  split; [by apply reduce_sum_insert_add | by rewrite length_insert].
Qed.

Lemma scatter_row_sum cols : forall us row row',
  length cols = length us →
  scatter_row row cols us = Some row' →
  reduce_sum row' = reduce_sum row + reduce_sum us ∧ length row' = length row.
Proof.
  unfold scatter_row.
  induction cols as [|c cols IH]; intros [|u us] row row' Hlen H; simplify_eq/=.
  - split; [|done]. change (reduce_sum row' = reduce_sum row' + 0). ring.
  - destruct (add_row row c u) as [row1|] eqn:H1; simpl in H.
    + apply add_row_sum in H1 as [Hs1 Hl1].
      destruct (IH us row1 row' ltac:(lia) H) as [Hs Hl].
      unfold reduce_sum in *. rewrite Hs, Hs1, Hl, Hl1. split; [ring|done].
    + by rewrite foldl_add_row_None in H.
Qed.

Lemma reduce_sum_zip_with_plus {A B} (f g : A → B → Qc) l k :
  reduce_sum (zip_with f l k) + reduce_sum (zip_with g l k)
  = reduce_sum (zip_with (fun x y => f x y + g x y) l k).
Proof.
  unfold reduce_sum.
  revert k. induction l as [|x l IH]; intros [|y k]; simpl; try ring.
  rewrite <-IH. ring.
Qed.

Lemma lo_add_zip self r d tz :
  lo_add self r d tz = zip_with (fun p b => p * (ceil b - b)) tz (coords self r d).
Proof. unfold lo_add. by rewrite zip_with_diag_r, zip_with_fmap_r. Qed.

Lemma hi_add_zip self r d tz :
  hi_add self r d tz = zip_with (fun p b => p * (b - floor b)) tz (coords self r d).
Proof.
  unfold hi_add.
  replace (zip_with Qcminus (coords self r d) (floor <$> coords self r d))
    with ((fun b => b - floor b) <$> coords self r d).
  - by rewrite zip_with_fmap_r.
  - induction (coords self r d); csimpl; congruence.
Qed.

Lemma length_coords self r d : length (coords self r d) = N self.
Proof. unfold coords, clipped, shifted. by rewrite !length_fmap, length_bins. Qed.

(** Whatever row the projection of a sample returns, its mass is the sum
    over the atoms of [p_i * (ceil b_i - floor b_i)]. *)
Lemma project_row_mass self r d tz out :
  length tz = N self →
  project_row self r d tz = Some out →
  length out = N self
  ∧ reduce_sum out
    = reduce_sum (zip_with (fun p b => p * carried b) tz (coords self r d)).
Proof.
  intros Hlen. unfold project_row.
  destruct (scatter_row _ _ (lo_add self r d tz)) as [row|] eqn:Hlo; [|done].
  simpl. intros Hhi.
  apply scatter_row_sum in Hlo as [Hs1 Hl1].
  2:{ rewrite lo_add_zip, !length_fmap, length_zip_with, length_coords. lia. }
  apply scatter_row_sum in Hhi as [Hs2 Hl2].
  2:{ rewrite hi_add_zip, !length_fmap, length_zip_with, length_coords. lia. }
  split.
  - rewrite Hl2, Hl1. unfold clipped, shifted. by rewrite !length_fmap, length_bins.
  - rewrite Hs2, Hs1, fmap_const_replicate, reduce_sum_replicate_0.
    rewrite lo_add_zip, hi_add_zip.
    rewrite <-Qcplus_assoc, Qcplus_0_l, reduce_sum_zip_with_plus.
    f_equal. apply zip_with_ext; [|done..].
    intros p b. unfold carried. ring.
Qed.

Lemma carried_integral k : carried (Qc_of_Z k) = 0.
Proof. unfold carried. rewrite floor_of_Z, ceil_of_Z. ring. Qed.

Lemma Qceiling_fractional (x : Q) :
  ¬ (inject_Z (Qfloor x) == x)%Q → Qceiling x = (Qfloor x + 1)%Z.
Proof.
  intros Hx.
  pose proof (Qfloor_le x) as H1. pose proof (Qlt_floor x) as H2.
  pose proof (Qle_ceiling x) as H3. pose proof (Qceiling_lt x) as H4.
  assert (inject_Z (Qfloor x) < x)%Q as H5.
  { apply Qle_lt_or_eq in H1 as [?|?]; [done|by destruct Hx]. }
  assert (Qfloor x < Qceiling x)%Z.
  { rewrite Zlt_Qlt. by eapply Qlt_le_trans. }
  assert (Qceiling x - 1 < Qfloor x + 1)%Z.
  { rewrite Zlt_Qlt. by eapply Qlt_trans. }
  lia.
Qed.

Lemma carried_fractional b : floor b ≠ b → carried b = 1.
Proof.
  intros Hb. unfold carried, ceil, floor.
  rewrite Qceiling_fractional.
  - rewrite Z2Qc_inj_add, Z2Qc_inj_1. ring.
  - intros Heq. apply Hb. unfold floor. by apply Qc_is_canon.
Qed.

(** The projection keeps the mass of a sample none of whose atoms lands on
    a bin. *)
Lemma project_row_conserves_mass self r d tz out :
  length tz = N self →
  Forall (fun b => floor b ≠ b) (coords self r d) →
  project_row self r d tz = Some out →
  reduce_sum out = reduce_sum tz.
Proof.
  intros Hlen Hb Hout.
  destruct (project_row_mass _ _ _ _ _ Hlen Hout) as [_ ->].
  rewrite <-(length_coords self r d) in Hlen. clear Hout.
  revert tz Hlen. induction Hb as [|b bs Hb _ IH]; intros [|p tz] ?;
    simplify_eq/=; [done|].
  unfold reduce_sum in *. rewrite IH by done.
  rewrite carried_fractional by done. ring.
Qed.

(** ** On a proper support every index is in range *)


Lemma to_int32_of_Z k : to_int32 (Qc_of_Z k) = k.
Proof.
  unfold to_int32. destruct (decide _); [apply Qfloor_Z | apply Qceiling_Z].
Qed.


Lemma proper_support_positive self :
  proper_support self →
  0 < Qc_of_Z (Z.of_nat (N self) - 1) ∧ 0 < / dz self.
Proof.
  intros (Hlt & HN & Hdz).
  assert (0 < Qc_of_Z (Z.of_nat (N self) - 1)) as Hn.
  { rewrite <-Z2Qc_inj_0. apply (proj1 (Z2Qc_inj_lt _ _)). lia. }
  split; [done|].
  apply Qcinv_pos. rewrite Hdz. unfold Qcdiv.
  rewrite <-(Qcmult_0_l (/ Qc_of_Z (Z.of_nat (N self) - 1))).
  apply Qcmult_lt_compat_r; [by apply Qcinv_pos|].
  apply Qclt_minus_iff in Hlt. exact Hlt.
Qed.

(** The bin coordinate of [V_max] is the top bin [N - 1]. *)
Lemma top_coordinate self :
  proper_support self →
  (V_max self - V_min self) / dz self = Qc_of_Z (Z.of_nat (N self) - 1).
Proof.
  intros Hs. destruct (proper_support_positive self Hs) as [Hn _].
  destruct Hs as (Hlt & HN & Hdz).
  rewrite Hdz. field. split; apply not_eq_sym, Qclt_not_eq; [done|].
  apply Qclt_minus_iff in Hlt. exact Hlt.
Qed.

Lemma clip_by_value_above t lo hi :
  lo ≤ hi → hi ≤ t → clip_by_value t lo hi = hi.
Proof.
  intros Hlh Hht. unfold clip_by_value, maximum, minimum.
  destruct (decide (t ≤ hi)) as [Hth|Hth].
  - assert (t = hi) as -> by (by apply Qcle_antisym).
    destruct (decide (hi ≤ lo)); [by apply Qcle_antisym | done].
  - destruct (decide (hi ≤ lo)); [by apply Qcle_antisym | done].
Qed.

(** An atom shifted to [V_max] or beyond is clamped to [V_max], lands on
    the top bin and sends no mass. *)
Lemma clipped_atom_sends_nothing self r d tz i t p :
  proper_support self →
  shifted self r d !! i = Some t →
  V_max self ≤ t →
  tz !! i = Some p →
  clipped self r d !! i = Some (V_max self)
  ∧ coords self r d !! i = Some (Qc_of_Z (Z.of_nat (N self) - 1))
  ∧ lo_add self r d tz !! i = Some 0
  ∧ hi_add self r d tz !! i = Some 0.
Proof.
  intros Hs Ht Hmax Hp.
  assert (clipped self r d !! i = Some (V_max self)) as Hc.
  { unfold clipped. rewrite list_lookup_fmap, Ht; simpl. f_equal.
    apply clip_by_value_above; [|done]. by apply Qclt_le_weak, Hs. }
  assert (coords self r d !! i = Some (Qc_of_Z (Z.of_nat (N self) - 1))) as Hb.
  { unfold coords. rewrite list_lookup_fmap, Hc; simpl. f_equal.
    by apply top_coordinate. }
  split; [done|]. split; [done|].
  by eapply integral_coordinate_sends_nothing.
Qed.


Lemma scatter_row_length cols : forall us row row',
  scatter_row row cols us = Some row' → length row' = length row.
Proof.
  unfold scatter_row.
  induction cols as [|c cols IH]; intros [|u us] row row' H; simplify_eq/=;
    try done.
  destruct (add_row row c u) as [row1|] eqn:H1; simpl in H.
  - apply add_row_sum in H1 as [_ <-]. by eapply IH.
  - by rewrite foldl_add_row_None in H.
Qed.



(** ** The target of a batch, sample by sample *)

Lemma C51_compute_target_rows self ph net :
  length (rew_t_ph ph) = length (done_ph ph) →
  length net = length (done_ph ph) →
  C51._compute_target self ph net
  = mapM (fun s => project_row self s.1.1 s.1.2 s.2)
      (zip (zip (rew_t_ph ph) (done_ph ph))
           ((fun z => select_row self z (argmax (expected_value self <$> z))) <$> net)).
Proof.
  intros Hr Hn.
  rewrite C51_compute_target_stages, <-list_fmap_compose, select_fmap.
  apply project_rows; [done | by rewrite length_fmap].
Qed.


(** A terminal transition whose clipped reward lies on bin [k] yields the
    zero row, whatever the mass of the bootstrap distribution. *)
Lemma terminal_row_integral self r k mass :
  terminal_coord self r = Qc_of_Z k →
  (0 ≤ k < Z.of_nat (N self))%Z →
  terminal_row self r mass = Some (replicate (N self) 0).
Proof.
  intros Hb Hk. unfold terminal_row. rewrite Hb.
  rewrite decide_False by lia.
  rewrite floor_of_Z, ceil_of_Z, to_int32_of_Z.
  assert (forall u, u = 0 →
    add_row (replicate (N self) 0) k u = Some (replicate (N self) 0)) as Hadd.
  { intros u ->. unfold add_row. rewrite decide_True by lia.
    rewrite lookup_replicate_2 by lia. simpl. f_equal.
    apply list_insert_id. rewrite Qcplus_0_r. apply lookup_replicate_2. lia. }
  rewrite Hadd by ring. simpl. apply Hadd. ring.
Qed.

(** ** The projection at work *)

(** C5.  With [N = 3], [V_min = 0], [V_max = 2] (hence [dz = 1]), the
    bootstrap distribution [[0, 1, 0]] of the single action, reward [1/2],
    [gamma = 1] and [done = False], the atom of value 1 is shifted to
    [Tz = 3/2], its bin coordinate is [3/2], it sends [1/2] to bin 1 and
    [1/2] to bin 2, and [_compute_target] returns [[0, 1/2, 1/2]]. *)
Theorem C5_end_to_end :
  C51.__init__ (inr {| base_n_actions := 1; base_gamma := 1 |}) 0 (frac 2 1) 3
  = inr (model3 1)
  ∧ dz (model3 1) = 1
  ∧ shifted (model3 1) (frac 1 2) false !! 1%nat = Some (frac 3 2)
  ∧ coords (model3 1) (frac 1 2) false !! 1%nat = Some (frac 3 2)
  ∧ (to_int32 <$> (floor <$> coords (model3 1) (frac 1 2) false)) !! 1%nat = Some 1%Z
  ∧ (to_int32 <$> (ceil <$> coords (model3 1) (frac 1 2) false)) !! 1%nat = Some 2%Z
  ∧ lo_add (model3 1) (frac 1 2) false [0; 1; 0] !! 1%nat = Some (frac 1 2)
  ∧ hi_add (model3 1) (frac 1 2) false [0; 1; 0] !! 1%nat = Some (frac 1 2)
  ∧ C51._compute_target (model3 1) (batch1 (frac 1 2) false) [[[0; 1; 0]]]
    = Some [[0; frac 1 2; frac 1 2]].
Proof.
  split; [apply model3_init|]. repeat split; by_evaluation.
Qed.

(** C2.  With [N = 3] atoms on [[0, 2]], [gamma = 1], reward 0 and a
    non-terminal transition every atom lands on its own bin: the bin
    coordinates are [0, 1, 2].  The atom of value 1 carries all the mass,
    and [_compute_target] returns the zero row: bin 1 receives nothing. *)
Theorem C2_mass_on_a_bin_is_dropped :
  coords (model3 1) 0 false = [Qc_of_Z 0; Qc_of_Z 1; Qc_of_Z 2]
  ∧ lo_add (model3 1) 0 false [0; 1; 0] = [0; 0; 0]
  ∧ hi_add (model3 1) 0 false [0; 1; 0] = [0; 0; 0]
  ∧ C51._compute_target (model3 1) (batch1 0 false) [[[0; 1; 0]]]
    = Some [[0; 0; 0]].
Proof. repeat split; by_evaluation. Qed.

(** C1.  A terminal transition of reward 1 on the same support, with the
    bootstrap distribution [[1/4, 1/2, 1/4]]: the reward lands on bin 1 and
    the returned row is [[0, 0, 0]], of sum 0. *)
Theorem C1_row_does_not_sum_to_one :
  normalised (model3 (frac 99 100)) [[[frac 1 4; frac 1 2; frac 1 4]]]
  ∧ C51._compute_target (model3 (frac 99 100)) (batch1 1 true)
      [[[frac 1 4; frac 1 2; frac 1 4]]]
    = Some [[0; 0; 0]]
  ∧ reduce_sum [0; 0; 0] ≠ 1.
Proof.
  split; [|split].
  - repeat constructor. by_evaluation.
  - by_evaluation.
  - by_evaluation.
Qed.

(** C3.  With [gamma = 1/2] and all the mass on the atom of value 1, reward
    0 leaves [[1/2, 1/2, 0]].  Reward 2 shifts that atom to [5/2], above
    [V_max = 2]; it is clamped to [V_max], its bin coordinate is the top
    bin 2, and the returned row is [[0, 0, 0]]: the top bin does not gain
    the mass, which is lost. *)
Theorem C3_clipped_mass_is_lost :
  shifted (model3 (frac 1 2)) (frac 2 1) false !! 1%nat = Some (frac 5 2)
  ∧ clipped (model3 (frac 1 2)) (frac 2 1) false !! 1%nat = Some (V_max (model3 (frac 1 2)))
  ∧ coords (model3 (frac 1 2)) (frac 2 1) false !! 1%nat = Some (Qc_of_Z 2)
  ∧ C51._compute_target (model3 (frac 1 2)) (batch1 0 false) [[[0; 1; 0]]]
    = Some [[frac 1 2; frac 1 2; 0]]
  ∧ C51._compute_target (model3 (frac 1 2)) (batch1 (frac 2 1) false) [[[0; 1; 0]]]
    = Some [[0; 0; 0]].
Proof. repeat split; by_evaluation. Qed.

(** ** The exploration policy *)

(** C7.  [_action_train] reads exactly one uniform draw [u].  With
    [epsilon = 0] it returns the network's action, with [epsilon = 1] the
    action sampled from the action space, and in general it samples from
    the action space exactly when [u < epsilon]. *)
Theorem C7_epsilon_greedy {St RB} (self : AgentDQN.AgentDQN St RB) (state : St)
    (t : Z) (w : AgentDQN.world) :
  let u := AgentDQN.uniform w (AgentDQN.uniform_pos w) in
  let epsilon := AgentDQN.exploration self t in
  let greedy := AgentDQN.action_train (AgentDQN.model self) state in
  let random := AgentDQN.space_sample w (AgentDQN.space_pos w) in
  let out := AgentDQN._action_train self state t w in
  0 ≤ u → u < 1 →
  AgentDQN.uniform_pos out.2 = S (AgentDQN.uniform_pos w)
  ∧ (epsilon = 0 → out.1 = greedy ∧ AgentDQN.space_pos out.2 = AgentDQN.space_pos w)
  ∧ (epsilon = 1 → out.1 = random ∧ AgentDQN.space_pos out.2 = S (AgentDQN.space_pos w))
  ∧ (u < epsilon ↔ AgentDQN.space_pos out.2 = S (AgentDQN.space_pos w))
  ∧ out.1 = (if decide (u < epsilon) then random else greedy).
Proof.
  intros u epsilon greedy random out Hu0 Hu1.
  unfold out, AgentDQN._action_train, AgentDQN.prng_uniform,
    AgentDQN.action_space_sample.
  fold u epsilon greedy random.
  destruct (decide (u < epsilon)) as [Hlt|Hge]; simpl.
  - split_and!; try done;
      intros H0; rewrite H0 in Hlt; by apply Qclt_not_le in Hlt.
  - split_and!; try done.
    + intros H1. by rewrite H1 in Hge.
    + split; [done | lia].
Qed.

Lemma C7_witness :
  (AgentDQN._action_train (agent2 0) tt 7 (world0 (frac 1 4))).1 = 1%nat
  ∧ (AgentDQN._action_train (agent2 1) tt 7 (world0 (frac 1 4))).1 = 0%nat
  ∧ (AgentDQN._action_train (agent2 (frac 1 2)) tt 7 (world0 (frac 1 4))).1 = 0%nat
  ∧ (AgentDQN._action_train (agent2 (frac 1 2)) tt 7 (world0 (frac 3 4))).1 = 1%nat.
Proof.
  assert (0 ≤ frac 1 4) as Ha by by_evaluation.
  assert (frac 1 4 < 1) as Hb by by_evaluation.
  assert (0 ≤ frac 3 4) as Hc by by_evaluation.
  assert (frac 3 4 < 1) as Hd by by_evaluation.
  split_and!.
  - by apply (C7_epsilon_greedy (agent2 0) tt 7 (world0 (frac 1 4)) Ha Hb).
  - by apply (C7_epsilon_greedy (agent2 1) tt 7 (world0 (frac 1 4)) Ha Hb).
  - by destruct (C7_epsilon_greedy (agent2 (frac 1 2)) tt 7 (world0 (frac 1 4)) Ha Hb)
      as (_ & _ & _ & _ & ->).
  - by destruct (C7_epsilon_greedy (agent2 (frac 1 2)) tt 7 (world0 (frac 3 4)) Hc Hd)
      as (_ & _ & _ & _ & ->).
Defined.

(** ** The mode of the recorder *)

(** C9.  Assigning a string other than ["t"] and ["e"] to [mode] raises
    and leaves the recorder, hence the stored mode, as it was; assigning
    ["t"] or ["e"] returns normally and stores that value. *)
Theorem C9_mode_setter (s : StatsRecorder.StatsRecorder) (m : string) :
  (m ≠ "t" → m ≠ "e" →
     (∃ e, (StatsRecorder.mode_setter m s).1 = inl e)
     ∧ (StatsRecorder.mode_setter m s).2 = s)
  ∧ (m = "t" ∨ m = "e" →
     (StatsRecorder.mode_setter m s).1 = inr tt
     ∧ StatsRecorder._mode (StatsRecorder.mode_setter m s).2 = m
     ∧ (StatsRecorder.mode (StatsRecorder.mode_setter m s).2).1 = inr m).
Proof.
  unfold StatsRecorder.mode_setter. split.
  - intros Ht He. rewrite bool_decide_eq_false_2; simpl; [eauto|].
    rewrite !elem_of_cons, elem_of_nil. tauto.
  - intros Hm. rewrite bool_decide_eq_true_2; simpl; [done|].
    rewrite !elem_of_cons. tauto.
Qed.

Lemma C9_witness :
  ((∃ e, (StatsRecorder.mode_setter "train" (recorder0 "t")).1 = inl e)
   ∧ (StatsRecorder.mode_setter "train" (recorder0 "t")).2 = recorder0 "t")
  ∧ (StatsRecorder.mode_setter "e" (recorder0 "t")).1 = inr tt
  ∧ StatsRecorder._mode (StatsRecorder.mode_setter "e" (recorder0 "t")).2 = "e"
  ∧ (StatsRecorder.mode (StatsRecorder.mode_setter "e" (recorder0 "t")).2).1 = inr "e".
Proof.
  split.
  - apply (C9_mode_setter (recorder0 "t") "train"); discriminate.
  - apply (C9_mode_setter (recorder0 "t") "e"). by right.
Defined.

(** ** Configuration errors *)

(** The constructor of the distributional model takes a support with
    [V_min >= V_max], and the constructor of the recorder a mode that is
    neither ["t"] nor ["e"]. *)
Lemma C8_constructors_accept_bad_configuration :
  (∃ m, C51.__init__ (inr {| base_n_actions := 4; base_gamma := frac 99 100 |}) 1 0 51
        = inr m
        ∧ V_max m ≤ V_min m
        ∧ dz m = frac (-1) 50)
  ∧ StatsRecorder.__init__
      {| StatsRecorder.path_exists := true; StatsRecorder.makedirs := inr tt |}
      0 "logs" "train" 100
    = inr (recorder0 "train").
Proof.
  split; [|reflexivity].
  eexists. split; [reflexivity|]. split; by_evaluation.
Qed.

(** C8, as the code has it.  [AgentDQN.__init__] fails at once, with an
    assertion error and before the model is built, when the observation
    space of the environment is not a [Box]; [C51.__init__] does not look
    at the order of [V_min] and [V_max]: whenever [N] is not 1 it returns
    a model with [dz = (V_max - V_min) / (N - 1)]. *)
Theorem C8_configuration_errors :
  (forall (St RB : Type) (env : AgentDQN.env)
      (model_cls : list nat → nat → result (AgentDQN.Model St))
      (exploration : Z → Qc) (update_target_freq memory_size : Z)
      (obs_len : nat) (epsilon_eval : Qc)
      (ReplayBuffer : Z → list nat → nat → result RB)
      (_define_log_info : result unit),
     (forall shape, AgentDQN.observation_space env ≠ AgentDQN.Box shape) →
     AgentDQN.__init__ (inr env) model_cls exploration update_target_freq
       memory_size obs_len epsilon_eval ReplayBuffer _define_log_info
     = inl AssertionError)
  ∧ (forall (base : BaseDQN) (V_min V_max : Qc) (N : nat),
       N ≠ 1%nat →
       C51.__init__ (inr base) V_min V_max N
       = inr {| n_actions := base_n_actions base;
                gamma := base_gamma base;
                N := N;
                V_min := V_min;
                V_max := V_max;
                dz := (V_max - V_min) / Qc_of_Z (Z.of_nat N - 1) |}).
Proof.
  split.
  - intros St RB env ? ? ? ? ? ? ? ? Hbox.
    unfold AgentDQN.__init__; simpl.
    destruct (AgentDQN.observation_space env) eqn:Hobs; try done.
    by destruct (Hbox shape).
  - intros base V_min V_max N HN.
    unfold C51.__init__; simpl.
    by rewrite decide_False by lia.
Qed.

Lemma C8_witness :
  AgentDQN.__init__ (St := unit) (RB := unit) (inr discrete_env)
    (fun _ _ => inr {| AgentDQN.action_train := fun _ => 0%nat;
                       AgentDQN.action_eval := fun _ => 0%nat |})
    (fun _ => frac 1 10) 10000 1000000 4 (frac 1 1000)
    (fun _ _ _ => inr tt) (inr tt)
  = inl AssertionError
  ∧ C51.__init__ (inr {| base_n_actions := 4; base_gamma := frac 99 100 |}) 1 0 51
    = inr {| n_actions := 4; gamma := frac 99 100; N := 51;
             V_min := 1; V_max := 0;
             dz := (0 - 1) / Qc_of_Z (Z.of_nat 51 - 1) |}.
Proof.
  split.
  - apply (proj1 C8_configuration_errors). intros shape. discriminate.
  - apply (proj2 C8_configuration_errors
             {| base_n_actions := 4; base_gamma := frac 99 100 |} 1 0 51%nat).
    discriminate.
Defined.

(** ** The best rewards never decrease *)

Section best_rewards.
Import StatsRecorder.

Lemma fgt_trans a b c : fgt a b = true → fgt b c = true → fgt a c = true.
Proof.
  destruct a, b, c; simpl; try done.
  rewrite !bool_decide_eq_true. intros. by eapply Qclt_trans.
Qed.

Lemma fle_refl a : fle a a.
Proof. by left. Qed.

Lemma fle_trans a b c : fle a b → fle b c → fle a c.
Proof.
  intros [->|Hab] [->|Hbc]; unfold fle; eauto using fgt_trans.
Qed.

Lemma fle_py_max a b : fle a (py_max a b).
Proof.
  unfold py_max. destruct (fgt b a) eqn:H; [by right | by left].
Qed.

Lemma _compute_runtime_stats_train step t_now (s : StatsRecorder) st :
  train_stats s = Some st →
  train_stats (_compute_runtime_stats step t_now s).2
  = Some (updated s (train_ep_rews s) (train_ep_lens s) st).
Proof.
  intros Hst. destruct s; simpl in *; subst.
  unfold _compute_runtime_stats, mbind, M_bind, get, modify, not_None, throw, mret, M_ret;
    simpl.
  destruct eval_stats0; simpl; [|done].
  destruct (bool_decide _); simpl; [|done].
  destruct (decide _); simpl; done.
Qed.

Lemma _compute_runtime_stats_eval step t_now (s : StatsRecorder) st se :
  train_stats s = Some st →
  eval_stats s = Some se →
  eval_stats (_compute_runtime_stats step t_now s).2
  = Some (updated s (eval_ep_rews s) (eval_ep_lens s) se).
Proof.
  intros Hst Hse. destruct s; simpl in *; subst.
  unfold _compute_runtime_stats, mbind, M_bind, get, modify, not_None, throw, mret, M_ret;
    simpl.
  destruct (bool_decide _); simpl; [|done].
  destruct (decide _); simpl; done.
Qed.

(** No other call touches the two dictionaries. *)
Lemma other_calls_keep_stats c (s : StatsRecorder) :
  (forall step t_now, c ≠ call_compute_runtime_stats step t_now) →
  (forall t t_now, c ≠ call_log_stats t t_now) →
  train_stats (run_call c s).2 = train_stats s
  ∧ eval_stats (run_call c s).2 = eval_stats s.
Proof.
  intros H1 H2. destruct s.
  destruct c; try (by destruct (H1 step t_now)); try (by destruct (H2 t t_now));
    unfold run_call, mode_setter, before_step, after_step, _finish_episode,
      before_reset, after_reset, close,
      mbind, M_bind, get, modify, not_None, throw, mret, M_ret; simpl.
  - by destruct (negb _).
  - by destruct disabled0.
  - destruct ep_steps0; simpl; [|done].
    destruct ep_reward0; simpl; [|done].
    destruct done; simpl; [|done].
    by destruct (bool_decide _).
  - by destruct disabled0.
  - done.
  - done.
Qed.

Lemma call_keeps_best_rewards c (s : StatsRecorder) st se :
  train_stats s = Some st →
  eval_stats s = Some se →
  ∃ st' se',
    train_stats (run_call c s).2 = Some st'
    ∧ eval_stats (run_call c s).2 = Some se'
    ∧ fle (best_mean_rew st) (best_mean_rew st')
    ∧ fle (best_ep_rew st) (best_ep_rew st')
    ∧ fle (best_mean_rew se) (best_mean_rew se')
    ∧ fle (best_ep_rew se) (best_ep_rew se').
Proof.
  intros Hst Hse.
  assert (forall step t_now,
    ∃ st' se',
      train_stats (_compute_runtime_stats step t_now s).2 = Some st'
      ∧ eval_stats (_compute_runtime_stats step t_now s).2 = Some se'
      ∧ fle (best_mean_rew st) (best_mean_rew st')
      ∧ fle (best_ep_rew st) (best_ep_rew st')
      ∧ fle (best_mean_rew se) (best_mean_rew se')
      ∧ fle (best_ep_rew se) (best_ep_rew se')) as Hcompute.
  { intros step t_now. do 2 eexists.
    rewrite (_compute_runtime_stats_train _ _ _ _ Hst).
    rewrite (_compute_runtime_stats_eval _ _ _ _ _ Hst Hse).
    split_and!; try done; apply fle_py_max. }
  destruct c; try apply Hcompute.
  all: edestruct (other_calls_keep_stats) as [-> ->]; [done|done|].
  all: exists st, se; split_and!; try done; apply fle_refl.
Qed.

(** C10.  One call of [_compute_runtime_stats] stores, under
    ["best_mean_rew"] and ["best_ep_rew"] of both dictionaries, the [max]
    of the stored value and a new candidate; and over every sequence of
    calls on the recorder the four values never decrease. *)
Theorem C10_best_rewards_never_decrease (s : StatsRecorder) st se :
  train_stats s = Some st →
  eval_stats s = Some se →
  (forall step t_now,
     train_stats (_compute_runtime_stats step t_now s).2
     = Some (updated s (train_ep_rews s) (train_ep_lens s) st)
     ∧ eval_stats (_compute_runtime_stats step t_now s).2
       = Some (updated s (eval_ep_rews s) (eval_ep_lens s) se))
  ∧ (forall cs,
       ∃ st' se',
         train_stats (run cs s) = Some st'
         ∧ eval_stats (run cs s) = Some se'
         ∧ fle (best_mean_rew st) (best_mean_rew st')
         ∧ fle (best_ep_rew st) (best_ep_rew st')
         ∧ fle (best_mean_rew se) (best_mean_rew se')
         ∧ fle (best_ep_rew se) (best_ep_rew se')).
Proof.
  intros Hst Hse. split.
  - intros step t_now. split.
    + by apply _compute_runtime_stats_train.
    + by eapply _compute_runtime_stats_eval.
  - intros cs. revert s st se Hst Hse.
    induction cs as [|c cs IH]; intros s st se Hst Hse.
    + exists st, se. split_and!; try done; apply fle_refl.
    + destruct (call_keeps_best_rewards c s st se Hst Hse)
        as (st1 & se1 & Hst1 & Hse1 & H1 & H2 & H3 & H4).
      destruct (IH _ _ _ Hst1 Hse1) as (st' & se' & ? & ? & ? & ? & ? & ?).
      exists st', se'. split_and!; try done; by eapply fle_trans.
Qed.

Lemma C10_witness :
  (forall step t_now,
     train_stats (_compute_runtime_stats step t_now (recorder1 "t")).2
     = Some (updated (recorder1 "t") (train_ep_rews (recorder1 "t"))
               (train_ep_lens (recorder1 "t")) fresh_stats)
     ∧ eval_stats (_compute_runtime_stats step t_now (recorder1 "t")).2
       = Some (updated (recorder1 "t") (eval_ep_rews (recorder1 "t"))
                 (eval_ep_lens (recorder1 "t")) fresh_stats))
  ∧ (forall cs,
       ∃ st' se',
         train_stats (run cs (recorder1 "t")) = Some st'
         ∧ eval_stats (run cs (recorder1 "t")) = Some se'
         ∧ fle (best_mean_rew fresh_stats) (best_mean_rew st')
         ∧ fle (best_ep_rew fresh_stats) (best_ep_rew st')
         ∧ fle (best_mean_rew fresh_stats) (best_mean_rew se')
         ∧ fle (best_ep_rew fresh_stats) (best_ep_rew se')).
Proof.
  apply (C10_best_rewards_never_decrease (recorder1 "t") fresh_stats fresh_stats);
    reflexivity.
Defined.

(** After the episodes of rewards 3 and 1 the mean is 2, and both best
    values are still 3. *)
Example best_rewards_after_two_episodes :
  (mean_ep_rew <$> train_stats (run two_episodes (recorder1 "t"))) = Some (fin (frac 2 1))
  ∧ (best_mean_rew <$> train_stats (run two_episodes (recorder1 "t"))) = Some (fin (frac 3 1))
  ∧ (best_ep_rew <$> train_stats (run two_episodes (recorder1 "t"))) = Some (fin (frac 3 1))
  ∧ (best_ep_rew <$> eval_stats (run two_episodes (recorder1 "t"))) = Some ninf.
Proof. repeat split; by_evaluation. Qed.

End best_rewards.

(** * Further properties *)

Import Acting.

(** ** The support *)

Lemma proper_support_dz self : proper_support self → 0 < dz self.
Proof.
  intros Hs. destruct (proper_support_positive self Hs) as [Hn _].
  destruct Hs as (Hlt & _ & ->). unfold Qcdiv.
  rewrite <-(Qcmult_0_l (/ Qc_of_Z (Z.of_nat (N self) - 1))).
  apply Qcmult_lt_compat_r; [by apply Qcinv_pos|].
  apply Qclt_minus_iff in Hlt. exact Hlt.
Qed.

Lemma bins_lookup self i :
  (i < N self)%nat →
  bins self !! i = Some (Qc_of_Z (Z.of_nat i) * dz self + V_min self).
Proof.
  intros Hi. unfold bins. rewrite list_lookup_fmap, lookup_seq_lt by done.
  done.
Qed.

(** X1.  On a support built from [V_min < V_max] and [N >= 2] atoms,
    [C51.build] lays out [N] atoms that start at [V_min], end at [V_max]
    and increase strictly. *)
Theorem bins_span_the_support self :
  proper_support self →
  length (bins self) = N self
  ∧ bins self !! 0%nat = Some (V_min self)
  ∧ bins self !! (N self - 1)%nat = Some (V_max self)
  ∧ (forall i j x y, (i < j)%nat →
       bins self !! i = Some x → bins self !! j = Some y → x < y).
Proof.
  intros Hs. pose proof (proper_support_dz self Hs) as Hdz.
  pose proof (top_coordinate self Hs) as Htop.
  pose proof Hs as (Hlt & HN & _).
  split_and!.
  - apply length_bins.
  - rewrite bins_lookup by lia. f_equal.
    change (Z.of_nat 0) with 0%Z. rewrite Z2Qc_inj_0. ring.
  - rewrite bins_lookup by lia. f_equal.
    replace (Z.of_nat (N self - 1)) with (Z.of_nat (N self) - 1)%Z by lia.
    rewrite <-Htop. field. by apply not_eq_sym, Qclt_not_eq.
  - intros i j x y Hij Hi Hj.
    assert (j < N self)%nat.
    { apply lookup_lt_Some in Hj. by rewrite length_bins in Hj. }
    rewrite bins_lookup in Hi, Hj by lia. simplify_eq.
    apply Qcplus_lt_mono_r, Qcmult_lt_compat_r; [done|].
    apply (proj1 (Z2Qc_inj_lt _ _)). lia.
Qed.

Lemma bins_span_the_support_witness :
  length (bins (model3 1)) = 3%nat
  ∧ bins (model3 1) !! 0%nat = Some 0
  ∧ bins (model3 1) !! 2%nat = Some (frac 2 1)
  ∧ (forall i j x y, (i < j)%nat →
       bins (model3 1) !! i = Some x → bins (model3 1) !! j = Some y → x < y).
Proof. apply (bins_span_the_support (model3 1)), model3_proper. Defined.

(** ** Greedy actions and the estimate *)

Lemma argmax_from_first_max x : forall pre bi b,
  pre !! bi = Some b →
  (forall j w, pre !! j = Some w → w ≤ b) →
  (forall j w, (j < bi)%nat → pre !! j = Some w → w < b) →
  first_max (pre ++ x) (argmax_from bi b (length pre) x).
Proof.
  induction x as [|v x IH]; intros pre bi b Hb Hmax Hfirst; simpl.
  - rewrite app_nil_r. by exists b.
  - assert (bi < length pre)%nat as Hbi by (by eapply lookup_lt_Some).
    replace (pre ++ v :: x) with ((pre ++ [v]) ++ x) by (by rewrite <-app_assoc).
    replace (S (length pre)) with (length (pre ++ [v]))
      by (rewrite length_app; simpl; lia).
    destruct (decide (b < v)) as [Hlt|Hge]; apply IH.
    + rewrite lookup_app_r, Nat.sub_diag by lia. done.
    + intros j w Hw. apply lookup_app_Some in Hw as [Hw|[_ Hw]].
      * apply Qclt_le_weak. eapply Qcle_lt_trans; [by eapply Hmax|done].
      * apply list_lookup_singleton_Some in Hw as [_ ->]. apply Qcle_refl.
    + intros j w Hj Hw. rewrite lookup_app_l in Hw by done.
      eapply Qcle_lt_trans; [by eapply Hmax|done].
    + by rewrite lookup_app_l.
    + intros j w Hw. apply lookup_app_Some in Hw as [Hw|[_ Hw]].
      * by eapply Hmax.
      * apply list_lookup_singleton_Some in Hw as [_ ->]. by apply Qcnot_lt_le.
    + intros j w Hj Hw. rewrite lookup_app_l in Hw by lia. by eapply Hfirst.
Qed.

Lemma argmax_first_max x : x ≠ [] → first_max x (argmax x).
Proof.
  destruct x as [|v x]; [done|]. intros _.
  apply (argmax_from_first_max x [v] 0%nat v).
  - done.
  - intros [|j] w Hw; simplify_eq/=. apply Qcle_refl.
  - intros j w Hj. lia.
Qed.

(** X3.  [C51._act_train] answers, for every sample with at least one
    action, the first action whose expected value (mass-weighted atom sum)
    is largest. *)
Theorem C51_act_train_is_greedy self (agent_net : list (list (list Qc))) k z :
  agent_net !! k = Some z →
  z ≠ [] →
  ∃ a, C51._act_train self agent_net !! k = Some a
       ∧ first_max (expected_value self <$> z) a.
Proof.
  intros Hz Hne. unfold C51._act_train.
  rewrite !list_lookup_fmap, Hz. simpl. eexists. split; [done|].
  apply argmax_first_max. by destruct z.
Qed.

Lemma C51_act_train_is_greedy_witness :
  ∃ a, C51._act_train (model3x2 1) [[[1; 0; 0]; [0; 0; 1]]] !! 0%nat = Some a
       ∧ first_max (expected_value (model3x2 1) <$> [[1; 0; 0]; [0; 0; 1]]) a.
Proof.
  by apply (C51_act_train_is_greedy (model3x2 1) [[[1; 0; 0]; [0; 0; 1]]] 0
              [[1; 0; 0]; [0; 0; 1]]).
Defined.

(** X2.  On a well-shaped batch [C51._compute_estimate] returns, for every
    sample, the distribution of the action taken; an action index outside
    the action space selects the zero row instead of failing. *)
Theorem compute_estimate_selects_action self (act_t_ph : list nat)
    (agent_net : list (list (list Qc))) :
  well_shaped self agent_net →
  C51._compute_estimate self act_t_ph agent_net
  = zip_with (fun z a => default (replicate (N self) 0) (z !! a)) agent_net act_t_ph.
Proof.
  intros Hnet. unfold C51._compute_estimate. rewrite zip_with_fmap_r.
  revert act_t_ph. induction Hnet as [|z net [Hz Hrows] _ IH]; intros [|a acts];
    simpl; try done.
  f_equal; [|apply IH].
  by apply (select_row_lookup self z a).
Qed.

Lemma compute_estimate_selects_action_witness :
  C51._compute_estimate (model3x2 1) [1; 7]%nat
    [[[1; 0; 0]; [0; 0; 1]]; [[0; 1; 0]; [0; 0; 1]]]
  = zip_with (fun z a => default (replicate 3 0) (z !! a))
      [[[1; 0; 0]; [0; 0; 1]]; [[0; 1; 0]; [0; 0; 1]]] [1; 7]%nat.
Proof.
  apply (compute_estimate_selects_action (model3x2 1)).
  repeat constructor.
Defined.

(** ** The rows of a target *)

Lemma project_row_length self r d tz out :
  project_row self r d tz = Some out → length out = N self.
Proof.
  unfold project_row.
  destruct (scatter_row _ _ (lo_add self r d tz)) as [row|] eqn:Hlo; [|done].
  simpl. intros Hhi.
  apply scatter_row_length in Hlo, Hhi. rewrite Hhi, Hlo.
  unfold clipped, shifted. by rewrite !length_fmap, length_bins.
Qed.

(** Row [k] of a target is the projection of sample [k]. *)
Lemma target_row self ph net out k row :
  length (rew_t_ph ph) = length (done_ph ph) →
  length net = length (done_ph ph) →
  C51._compute_target self ph net = Some out →
  out !! k = Some row →
  ∃ r d z,
    rew_t_ph ph !! k = Some r ∧ done_ph ph !! k = Some d ∧ net !! k = Some z
    ∧ project_row self r d (select_row self z (argmax (expected_value self <$> z)))
      = Some row.
Proof.
  intros Hr Hn Hout Hrow.
  rewrite C51_compute_target_rows in Hout by done.
  apply mapM_Some in Hout.
  destruct (Forall2_lookup_r _ _ _ _ _ Hout Hrow) as ([[r d] tz] & Hs & Hp).
  apply lookup_zip_with_Some in Hs as (rd & tz' & ? & Hrd & Htz); simplify_eq.
  apply lookup_zip_with_Some in Hrd as (r' & d' & ? & Hr' & Hd'); simplify_eq.
  rewrite list_lookup_fmap in Htz.
  destruct (net !! k) as [z|] eqn:Hz; simplify_eq/=.
  by exists r', d', z.
Qed.

(** A target returned by [C51._compute_target] has one row per sample
    of the batch and [N] entries per row. *)
Lemma compute_target_shape self ph net out :
  length (rew_t_ph ph) = length (done_ph ph) →
  length net = length (done_ph ph) →
  C51._compute_target self ph net = Some out →
  length out = length (done_ph ph) ∧ Forall (fun row => length row = N self) out.
Proof.
  intros Hr Hn Hout. split.
  - rewrite C51_compute_target_rows in Hout by done.
    apply length_mapM in Hout. rewrite <-Hout.
    rewrite !length_zip_with, length_fmap. lia.
  - apply Forall_lookup. intros k row Hrow.
    destruct (target_row _ _ _ _ _ _ Hr Hn Hout Hrow) as (r & d & z & _ & _ & _ & Hp).
    by eapply project_row_length.
Qed.

Lemma compute_target_shape_witness :
  length [[0; frac 1 2; frac 1 2]] = length (done_ph (batch1 (frac 1 2) false))
  ∧ Forall (fun row => length row = N (model3 1)) [[0; frac 1 2; frac 1 2]].
Proof.
  apply (compute_target_shape (model3 1) (batch1 (frac 1 2) false) [[[0; 1; 0]]]).
  - reflexivity.
  - reflexivity.
  - by_evaluation.
Defined.

(** ** Targets are sub-distributions *)

Lemma ceil_ge b : b ≤ ceil b.
Proof. exact (Qle_ceiling b). Qed.

Lemma floor_le b : floor b ≤ b.
Proof. exact (Qfloor_le b). Qed.

Lemma Qcle_0_minus x y : x ≤ y → 0 ≤ y - x.
Proof. intros H. apply Qcle_minus_iff in H. exact H. Qed.

Lemma carried_0_or_1 b : carried b = 0 ∨ carried b = 1.
Proof.
  destruct (decide (floor b = b)) as [Hb|Hb].
  - left. rewrite <-Hb. apply carried_integral.
  - right. by apply carried_fractional.
Qed.

Lemma add_row_nonneg row c u row' :
  Forall (fun p => 0 ≤ p) row → 0 ≤ u →
  add_row row c u = Some row' → Forall (fun p => 0 ≤ p) row'.
Proof.
  intros Hrow Hu. unfold add_row. destruct (decide _); [|done].
  destruct (row !! Z.to_nat c) as [v|] eqn:Hv; intros; simplify_eq/=.
  apply Forall_insert; [done|].
  apply Qcplus_nonneg_nonneg; [|done]. by eapply (Forall_lookup_1 _ _ _ _ Hrow).
Qed.

Lemma scatter_row_nonneg cols : forall us row row',
  Forall (fun p => 0 ≤ p) row → Forall (fun p => 0 ≤ p) us →
  scatter_row row cols us = Some row' → Forall (fun p => 0 ≤ p) row'.
Proof.
  unfold scatter_row.
  induction cols as [|c cols IH]; intros [|u us] row row' Hrow Hus H;
    simplify_eq/=; try done.
  apply Forall_cons in Hus as [Hu Hus].
  destruct (add_row row c u) as [row1|] eqn:H1; simpl in H.
  - apply (IH us row1 row'); [exact (add_row_nonneg _ _ _ _ Hrow Hu H1)|done|done].
  - by rewrite foldl_add_row_None in H.
Qed.

Lemma zip_with_nonneg (f : Qc → Qc → Qc) (tz bs : list Qc) :
  (forall p b, 0 ≤ p → 0 ≤ f p b) →
  Forall (fun p => 0 ≤ p) tz →
  Forall (fun p => 0 ≤ p) (zip_with f tz bs).
Proof.
  intros Hf Htz. revert bs. induction Htz; intros [|b bs]; simpl; auto.
Qed.

Lemma project_row_nonneg self r d tz out :
  Forall (fun p => 0 ≤ p) tz →
  project_row self r d tz = Some out →
  Forall (fun p => 0 ≤ p) out.
Proof.
  intros Htz. unfold project_row.
  destruct (scatter_row _ _ (lo_add self r d tz)) as [row|] eqn:Hlo; [|done].
  simpl. intros Hhi.
  eapply scatter_row_nonneg in Hlo.
  - eapply scatter_row_nonneg in Hhi; [done|done|].
    rewrite hi_add_zip. apply zip_with_nonneg; [|done].
    intros p b Hp. apply Qcmult_nonneg_nonneg; [done|].
    apply Qcle_0_minus, floor_le.
  - apply Forall_fmap, Forall_forall. intros ? _. simpl. apply Qcle_refl.
  - rewrite lo_add_zip. apply zip_with_nonneg; [|done].
    intros p b Hp. apply Qcmult_nonneg_nonneg; [done|].
    apply Qcle_0_minus, ceil_ge.
Qed.

Lemma reduce_sum_nonneg tz : Forall (fun p => 0 ≤ p) tz → 0 ≤ reduce_sum tz.
Proof.
  unfold reduce_sum. induction 1; simpl; [apply Qcle_refl|].
  by apply Qcplus_nonneg_nonneg.
Qed.

Lemma carried_sum_le (tz bs : list Qc) :
  Forall (fun p => 0 ≤ p) tz →
  reduce_sum (zip_with (fun p b => p * carried b) tz bs) ≤ reduce_sum tz.
Proof.
  intros Htz. revert bs. unfold reduce_sum.
  induction Htz as [|p tz Hp Htz IH]; intros [|b bs]; simpl.
  - apply Qcle_refl.
  - apply Qcle_refl.
  - apply Qcplus_nonneg_nonneg; [done | by apply reduce_sum_nonneg].
  - apply Qcplus_le_compat; [|apply IH].
    destruct (carried_0_or_1 b) as [->| ->].
    + by rewrite Qcmult_0_r.
    + rewrite Qcmult_1_r. apply Qcle_refl.
Qed.

Lemma reduce_sum_zeros n : Forall (fun p => 0 ≤ p) (replicate n 0).
Proof. apply Forall_replicate, Qcle_refl. Qed.

(** The row selected in a sample of a normalised batch without negative
    masses is a row of [N] non-negative masses of sum at most 1. *)
Lemma select_row_subdistribution self z (q : list Qc) :
  length z = n_actions self →
  Forall (fun p => length p = N self ∧ reduce_sum p = 1) z →
  Forall (Forall (fun p => 0 ≤ p)) z →
  length q = length z →
  length (select_row self z (argmax q)) = N self
  ∧ Forall (fun p => 0 ≤ p) (select_row self z (argmax q))
  ∧ reduce_sum (select_row self z (argmax q)) = selected_mass self.
Proof.
  intros Hlen Hz Hpos Hq.
  destruct (select_row_normalised self z q Hlen Hz Hq) as [Hl Hs].
  split; [done|]. split; [|done].
  rewrite select_row_lookup; [|done|].
  2:{ eapply Forall_impl; [exact Hz|]. by intros ? [? _]. }
  destruct (z !! argmax q) as [p|] eqn:Hp; simpl.
  - by eapply (Forall_lookup_1 _ _ _ _ Hpos).
  - apply reduce_sum_zeros.
Qed.

Lemma selected_mass_le_1 self : selected_mass self ≤ 1.
Proof.
  unfold selected_mass. destruct (decide _); [by_evaluation | apply Qcle_refl].
Qed.

(** X5.  For a normalised batch without negative masses, every row of the
    target is a sub-distribution: no entry is negative and the entries sum
    to at most 1. *)
Theorem compute_target_subdistribution self ph net out :
  length (rew_t_ph ph) = length (done_ph ph) →
  length net = length (done_ph ph) →
  normalised self net →
  nonnegative net →
  C51._compute_target self ph net = Some out →
  Forall (fun row => Forall (fun p => 0 ≤ p) row ∧ reduce_sum row ≤ 1) out.
Proof.
  intros Hr Hn Hnorm Hpos Hout.
  apply Forall_lookup. intros k row Hrow.
  destruct (target_row _ _ _ _ _ _ Hr Hn Hout Hrow)
    as (r & d & z & _ & _ & Hz & Hp).
  destruct (Forall_lookup_1 _ _ _ _ Hnorm Hz) as [Hlen Hrows].
  pose proof (Forall_lookup_1 _ _ _ _ Hpos Hz) as Hzpos.
  destruct (select_row_subdistribution self z (expected_value self <$> z))
    as (Hl & Hnn & Hs); [done|done|done|by rewrite length_fmap|].
  split.
  - by eapply project_row_nonneg.
  - destruct (project_row_mass _ _ _ _ _ Hl Hp) as [_ ->].
    eapply Qcle_trans; [by apply carried_sum_le|].
    rewrite Hs. apply selected_mass_le_1.
Qed.

Lemma compute_target_subdistribution_witness :
  Forall (fun row => Forall (fun p => 0 ≤ p) row ∧ reduce_sum row ≤ 1)
    [[0; frac 1 2; frac 1 2]].
Proof.
  apply (compute_target_subdistribution (model3 1) (batch1 (frac 1 2) false)
           [[[0; 1; 0]]]).
  - reflexivity.
  - reflexivity.
  - repeat constructor.
  - repeat constructor; by_evaluation.
  - by_evaluation.
Defined.

(** X6.  When no atom of any sample lands on a bin (no bin coordinate is
    an integer) and there is at least one action, the projection keeps the
    mass: every row of the target of a normalised batch sums to 1. *)
Theorem compute_target_conserves_mass self ph net out :
  length (rew_t_ph ph) = length (done_ph ph) →
  length net = length (done_ph ph) →
  normalised self net →
  n_actions self ≠ 0%nat →
  (forall k r d, rew_t_ph ph !! k = Some r → done_ph ph !! k = Some d →
     Forall (fun b => floor b ≠ b) (coords self r d)) →
  C51._compute_target self ph net = Some out →
  Forall (fun row => reduce_sum row = 1) out.
Proof.
  intros Hr Hn Hnorm Hact Hfrac Hout.
  apply Forall_lookup. intros k row Hrow.
  destruct (target_row _ _ _ _ _ _ Hr Hn Hout Hrow)
    as (r & d & z & Hkr & Hkd & Hz & Hp).
  destruct (Forall_lookup_1 _ _ _ _ Hnorm Hz) as [Hlen Hrows].
  destruct (select_row_normalised self z (expected_value self <$> z))
    as [Hl Hs]; [done|done|by rewrite length_fmap|].
  rewrite (project_row_conserves_mass _ _ _ _ _ Hl (Hfrac _ _ _ Hkr Hkd) Hp).
  rewrite Hs. by rewrite decide_False.
Qed.

Lemma compute_target_conserves_mass_witness :
  Forall (fun row => reduce_sum row = 1) [[frac 3 4; frac 1 4; 0]].
Proof.
  apply (compute_target_conserves_mass (model3 (frac 1 2))
           (batch1 (frac 1 4) false) [[[1; 0; 0]]]).
  - reflexivity.
  - reflexivity.
  - repeat constructor.
  - discriminate.
  - intros [|k] r d Hkr Hkd; simplify_eq/=.
    repeat constructor; by_evaluation.
  - by_evaluation.
Defined.



(** ** Batches are projected sample by sample *)

Lemma mapM_app_option {A B} (f : A → option B) (l1 l2 : list A) :
  mapM f (l1 ++ l2)
  = k1 ← mapM f l1; k2 ← mapM f l2; Some (k1 ++ k2).
Proof.
  induction l1 as [|x l1 IH]; simpl.
  - by destruct (mapM f l2).
  - rewrite IH. destruct (f x); simpl; [|done].
    destruct (mapM f l1); simpl; [|done].
    by destruct (mapM f l2).
Qed.

(** X7.  The target of two batches put one after the other is the target of
    the first followed by the target of the second: no sample influences
    the row of another. *)
Theorem compute_target_app self rew1 done1 net1 rew2 done2 net2 :
  length rew1 = length done1 → length net1 = length done1 →
  length rew2 = length done2 → length net2 = length done2 →
  C51._compute_target self
    {| rew_t_ph := rew1 ++ rew2; done_ph := done1 ++ done2 |} (net1 ++ net2)
  = out1 ← C51._compute_target self {| rew_t_ph := rew1; done_ph := done1 |} net1;
    out2 ← C51._compute_target self {| rew_t_ph := rew2; done_ph := done2 |} net2;
    Some (out1 ++ out2).
Proof.
  intros Hr1 Hn1 Hr2 Hn2.
  rewrite !C51_compute_target_rows; simpl; try done.
  2,3: rewrite !length_app; lia.
  rewrite fmap_app.
  rewrite (zip_with_app pair rew1 rew2 done1 done2) by done.
  rewrite zip_with_app; [apply mapM_app_option|].
  rewrite length_zip_with, length_fmap. lia.
Qed.

Lemma compute_target_app_witness :
  C51._compute_target (model3 1)
    {| rew_t_ph := [frac 1 2] ++ [0]; done_ph := [false] ++ [true] |}
    ([[[0; 1; 0]]] ++ [[[1; 0; 0]]])
  = out1 ← C51._compute_target (model3 1)
             {| rew_t_ph := [frac 1 2]; done_ph := [false] |} [[[0; 1; 0]]];
    out2 ← C51._compute_target (model3 1)
             {| rew_t_ph := [0]; done_ph := [true] |} [[[1; 0; 0]]];
    Some (out1 ++ out2).
Proof. by apply (compute_target_app (model3 1)). Defined.

(** ** The double-network variant *)

(** X8.  When the online network and the target network give the same
    distributions, as right after a synchronisation, the double-network
    target is the plain target. *)
Theorem double_target_same_networks self ph net :
  Forall (Forall (fun p => length p = N self)) net →
  C51TS._compute_target self ph net net = C51._compute_target self ph net.
Proof.
  intros Hshape.
  rewrite C51TS_compute_target_stages, C51_compute_target_stages.
  do 2 f_equal. rewrite <-!list_fmap_compose.
  apply Forall_fmap_ext_1. eapply Forall_impl; [exact Hshape|].
  intros z Hz. by apply argmax_mean_sum.
Qed.

Lemma double_target_same_networks_witness :
  C51TS._compute_target (model3x2 1) (batch1 (frac 1 2) false)
    [[[0; 0; 1]; [0; 1; 0]]] [[[0; 0; 1]; [0; 1; 0]]]
  = C51._compute_target (model3x2 1) (batch1 (frac 1 2) false)
      [[[0; 0; 1]; [0; 1; 0]]].
Proof.
  apply (double_target_same_networks (model3x2 1)). repeat constructor.
Defined.

Lemma terminal_samples_zip self {A} (act : A → list Qc) : forall rew dn net (l : list A),
  length rew = length dn → length net = length dn → length l = length dn →
  Forall (fun d => d = true) dn →
  normalised self net →
  Forall (fun x => length (act x) = n_actions self) l →
  mapM (fun s => project_row self s.1.1 s.1.2 s.2)
       (zip (zip rew dn) (zip_with (fun z x => select_row self z (argmax (act x))) net l))
  = mapM (fun r => terminal_row self r (selected_mass self)) rew.
Proof.
  induction rew as [|r rew IH]; intros [|d dn] [|z net] [|x l] Hr Hn Hl Hd Hnet Hact;
    simplify_eq/=; [done|].
  apply Forall_cons in Hd as [-> Hd].
  apply Forall_cons in Hnet as [[Hz Hrows] Hnet].
  apply Forall_cons in Hact as [Hx Hact].
  destruct (select_row_normalised self z (act x) Hz Hrows) as [Hlen Hsum];
    [congruence|].
  rewrite project_row_done by done.
  rewrite Hsum. fold (selected_mass self).
  by rewrite IH.
Qed.

(** X9.  On a batch of terminal transitions the double-network target reads
    neither network beyond the shapes: it is the function of the rewards
    that the plain target is. *)
Theorem double_target_done self ph agent_z net :
  Forall (fun d => d = true) (done_ph ph) →
  length (rew_t_ph ph) = length (done_ph ph) →
  length net = length (done_ph ph) →
  length agent_z = length (done_ph ph) →
  normalised self net →
  Forall (fun z => length z = n_actions self) agent_z →
  C51TS._compute_target self ph agent_z net
  = mapM (fun r => terminal_row self r (selected_mass self)) (rew_t_ph ph).
Proof.
  intros Hd Hr Hn Ha Hnet Hshape.
  rewrite C51TS_compute_target_stages.
  rewrite <-list_fmap_compose, select_zip.
  rewrite project_rows; [|done|].
  2:{ rewrite length_zip_with. lia. }
  apply (terminal_samples_zip self
           (fmap (fun z => reduce_mean (zip_with Qcmult z (bins self))))); try done.
  eapply Forall_impl; [exact Hshape|]. intros z Hz; simpl.
  by rewrite length_fmap.
Qed.

Lemma double_target_done_witness :
  C51TS._compute_target (model3x2 1) (batch1 (frac 1 2) true)
    [[[1; 0; 0]; [0; 0; 1]]] [[[0; 0; 1]; [0; 1; 0]]]
  = mapM (fun r => terminal_row (model3x2 1) r (selected_mass (model3x2 1)))
      (rew_t_ph (batch1 (frac 1 2) true)).
Proof.
  apply (double_target_done (model3x2 1)).
  - repeat constructor.
  - reflexivity.
  - reflexivity.
  - reflexivity.
  - repeat constructor.
  - repeat constructor.
Defined.

(** ** Sampling an action from the distributions *)

Lemma reduce_sum_app l k : reduce_sum (l ++ k) = reduce_sum l + reduce_sum k.
Proof.
  unfold reduce_sum. induction l as [|x l IH]; simpl; [ring|]. rewrite IH. ring.
Qed.

Lemma length_cumsum_from x : forall acc, length (cumsum_from acc x) = length x.
Proof. induction x as [|p x IH]; intros acc; simpl; [done|]. by rewrite IH. Qed.

Lemma cumsum_from_lookup x : forall acc i,
  (i < length x)%nat →
  cumsum_from acc x !! i = Some (acc + mass_before x i).
Proof.
  unfold mass_before, reduce_sum.
  induction x as [|p x IH]; intros acc [|i] Hi; simpl in *; try lia.
  - f_equal. ring.
  - rewrite IH by lia. f_equal. ring.
Qed.

Lemma cumsum_exclusive_lookup x i :
  (i < length x)%nat → cumsum_exclusive x !! i = Some (mass_before x i).
Proof.
  intros Hi. unfold cumsum_exclusive. rewrite cumsum_from_lookup by done.
  f_equal. ring.
Qed.

Lemma mass_before_le p i :
  Forall (fun x => 0 ≤ x) p → mass_before p i ≤ reduce_sum p.
Proof.
  intros Hp. unfold mass_before.
  rewrite <-(take_drop i p) at 2. rewrite reduce_sum_app.
  rewrite <-(Qcplus_0_r (reduce_sum (take i p))) at 1.
  apply Qcplus_le_mono_l, reduce_sum_nonneg. by apply Forall_drop.
Qed.

Lemma mass_before_S p i x :
  p !! i = Some x → mass_before p (S i) = mass_before p i + x.
Proof.
  intros Hx. unfold mass_before.
  rewrite (take_S_r _ _ _ Hx), reduce_sum_app.
  unfold reduce_sum; simpl. ring.
Qed.

Lemma zip_with_fmap_same {A B C} (f : A → B → C) (g : A → B) (l : list A) :
  zip_with f l (g <$> l) = (fun x => f x (g x)) <$> l.
Proof. induction l; csimpl; congruence. Qed.

(** The sampled bin inverts the CDF: the draw lies in the interval of the
    CDF that belongs to the bin. *)
Lemma sampled_bin_inverts_cdf u p :
  Forall (fun x => 0 < x) p →
  reduce_sum p = 1 →
  0 ≤ u → u < 1 →
  ∃ x, p !! sampled_bin u p = Some x
       ∧ mass_before p (sampled_bin u p) ≤ u
       ∧ u < mass_before p (sampled_bin u p) + x.
Proof.
  intros Hpos Hsum Hu0 Hu1.
  assert (Forall (fun x => 0 ≤ x) p) as Hnn.
  { eapply Forall_impl; [exact Hpos|]. intros x; apply Qclt_le_weak. }
  assert (p ≠ []) as Hne.
  { intros ->. revert Hsum. by_evaluation. }
  unfold sampled_bin. rewrite zip_with_fmap_same.
  set (v := (fun x => x + (if decide (x ≤ u) then 0 else frac (-2) 1 * 1))
              <$> cumsum_exclusive p).
  assert (length v = length p) as Hlen.
  { unfold v, cumsum_exclusive. by rewrite length_fmap, length_cumsum_from. }
  assert (forall j, (j < length p)%nat →
    v !! j = Some (mass_before p j
                   + (if decide (mass_before p j ≤ u) then 0 else frac (-2) 1 * 1)))
    as Hv.
  { intros j Hj. unfold v.
    by rewrite list_lookup_fmap, cumsum_exclusive_lookup. }
  destruct (argmax_first_max v) as (vi & Hvi & Hmax & _).
  { intros Hnil. rewrite Hnil in Hlen. by destruct p. }
  set (i := argmax v) in *.
  assert (i < length p)%nat as Hi.
  { rewrite <-Hlen. by eapply lookup_lt_Some. }
  destruct (lookup_lt_is_Some_2 p i Hi) as [x Hx].
  exists x. split; [done|].
  rewrite Hv in Hvi by done. simplify_eq.
  (* the first entry of [v] is 0 *)
  assert (mass_before p 0 = 0) as Hm0 by done.
  assert (0 ≤ mass_before p i
              + (if decide (mass_before p i ≤ u) then 0 else frac (-2) 1 * 1))
    as H0.
  { apply (Hmax 0%nat). rewrite Hv by (destruct p; simpl in *; [done|lia]).
    rewrite Hm0, decide_True by done. by rewrite Qcplus_0_r. }
  assert (mass_before p i ≤ u) as Hle.
  { destruct (decide (mass_before p i ≤ u)) as [|Hgt]; [done|].
    exfalso. apply (Qcle_not_lt _ _ H0).
    apply Qcle_lt_trans with (1 + frac (-2) 1 * 1); [|by_evaluation].
    apply Qcplus_le_mono_r. rewrite <-Hsum. by apply mass_before_le. }
  split; [done|].
  rewrite <-(mass_before_S _ _ _ Hx).
  destruct (decide (S i < length p)%nat) as [HS|HS].
  - apply Qcnot_le_lt. intros HSle.
    pose proof (Hmax (S i) _ (Hv (S i) HS)) as Hcmp.
    rewrite !decide_True, !Qcplus_0_r in Hcmp by done.
    rewrite (mass_before_S _ _ _ Hx) in Hcmp.
    apply (Qcle_not_lt _ _ Hcmp).
    rewrite <-(Qcplus_0_r (mass_before p i)) at 1.
    apply Qcplus_lt_mono_l. by eapply (Forall_lookup_1 _ _ _ _ Hpos).
  - unfold mass_before. rewrite take_ge by lia. by rewrite Hsum.
Qed.

Lemma dot_one_hot_from (bs : list Qc) i : forall k,
  reduce_sum (zip_with Qcmult bs
                ((fun j => if decide (j = i) then 1 else 0) <$> seq k (length bs)))
  = match decide (k ≤ i)%nat with
    | left _ => default 0 (bs !! (i - k)%nat)
    | right _ => 0
    end.
Proof.
  unfold reduce_sum.
  induction bs as [|b bs IH]; intros k; csimpl.
  - by destruct (decide _).
  - rewrite (IH (S k)).
    destruct (decide (k = i)) as [->|Hne].
    + destruct (decide (S i ≤ i)%nat), (decide (i ≤ i)%nat); try lia.
      rewrite Nat.sub_diag; simpl. ring.
    + destruct (decide (S k ≤ i)%nat), (decide (k ≤ i)%nat); try lia.
      * replace (i - k)%nat with (S (i - S k)) by lia; simpl. ring.
      * ring.
Qed.

Lemma dot_one_hot self i :
  reduce_sum (zip_with Qcmult (bins self) (one_hot (N self) i))
  = default 0 (bins self !! i).
Proof.
  unfold one_hot. rewrite <-(length_bins self), dot_one_hot_from.
  rewrite decide_True by lia. by rewrite Nat.sub_0_r.
Qed.

Lemma sampled_bins_of_sample u (z : list (list Qc)) : forall n,
  (length z ≤ n)%nat →
  zip_with (fun c o => argmax (zip_with Qcplus c o))
    (cumsum_exclusive <$> z)
    (zip_with
       (fun (c : list Qc) u =>
          (fun x => if decide (x ≤ u) then 0 else frac (-2) 1 * 1) <$> c)
       (cumsum_exclusive <$> z) (replicate n u))
  = sampled_bin u <$> z.
Proof.
  induction z as [|p z IH]; intros [|n] Hn; simpl in *; try done; try lia.
  f_equal. apply IH. lia.
Qed.

(** The action of sample [k]: the first action whose sampled atom has the
    largest value. *)
Lemma C51TS_act_train_lookup self draws (agent_net : list (list (list Qc))) k z :
  agent_net !! k = Some z →
  length z = n_actions self →
  C51TS._act_train self draws agent_net !! k
  = Some (argmax ((fun p => default 0 (bins self !! sampled_bin (draws k) p)) <$> z)).
Proof.
  intros Hz Hlen. unfold C51TS._act_train.
  assert (k < length agent_net)%nat as Hk by (by eapply lookup_lt_Some).
  rewrite !list_lookup_fmap, !lookup_zip_with, !list_lookup_fmap, Hz.
  rewrite lookup_seq_lt by done. simpl.
  rewrite sampled_bins_of_sample by lia.
  rewrite <-!list_fmap_compose. do 2 f_equal.
  apply list_fmap_ext. intros _ p _. simpl. apply dot_one_hot.
Qed.

(** X10.  [C51TS._act_train] on a sample whose distributions are strictly
    positive and sum to 1, with a draw [u] in [[0, 1)]: for every action
    the sampled bin inverts the CDF ([u] lies between the mass before the
    bin and that mass plus the mass of the bin), and the answer is the
    first action whose sampled atom has the largest value. *)
Theorem C51TS_act_train_samples self draws (agent_net : list (list (list Qc))) k z :
  agent_net !! k = Some z →
  z ≠ [] →
  length z = n_actions self →
  Forall (fun p => Forall (fun x => 0 < x) p ∧ reduce_sum p = 1) z →
  0 ≤ draws k → draws k < 1 →
  (forall p, p ∈ z →
     ∃ x, p !! sampled_bin (draws k) p = Some x
          ∧ mass_before p (sampled_bin (draws k) p) ≤ draws k
          ∧ draws k < mass_before p (sampled_bin (draws k) p) + x)
  ∧ ∃ a, C51TS._act_train self draws agent_net !! k = Some a
         ∧ first_max
             ((fun p => default 0 (bins self !! sampled_bin (draws k) p)) <$> z) a.
Proof.
  intros Hz Hne Hlen Hrows Hu0 Hu1. split.
  - intros p Hp.
    destruct (proj1 (Forall_forall _ _) Hrows p Hp) as [Hpos Hsum].
    by apply sampled_bin_inverts_cdf.
  - eexists. split; [by apply C51TS_act_train_lookup|].
    apply argmax_first_max. by destruct z.
Qed.

Lemma C51TS_act_train_samples_witness :
  (forall p, p ∈ [[frac 1 4; frac 1 2; frac 1 4]; [frac 1 2; frac 1 4; frac 1 4]] →
     ∃ x, p !! sampled_bin (frac 3 5) p = Some x
          ∧ mass_before p (sampled_bin (frac 3 5) p) ≤ frac 3 5
          ∧ frac 3 5 < mass_before p (sampled_bin (frac 3 5) p) + x)
  ∧ ∃ a, C51TS._act_train (model3x2 1) (fun _ => frac 3 5)
           [[[frac 1 4; frac 1 2; frac 1 4]; [frac 1 2; frac 1 4; frac 1 4]]] !! 0%nat
         = Some a
         ∧ first_max
             ((fun p => default 0 (bins (model3x2 1) !! sampled_bin (frac 3 5) p))
                <$> [[frac 1 4; frac 1 2; frac 1 4]; [frac 1 2; frac 1 4; frac 1 4]]) a.
Proof.
  apply (C51TS_act_train_samples (model3x2 1) (fun _ => frac 3 5)
           [[[frac 1 4; frac 1 2; frac 1 4]; [frac 1 2; frac 1 4; frac 1 4]]] 0
           [[frac 1 4; frac 1 2; frac 1 4]; [frac 1 2; frac 1 4; frac 1 4]]).
  - reflexivity.
  - discriminate.
  - reflexivity.
  - repeat constructor; by_evaluation.
  - by_evaluation.
  - by_evaluation.
Defined.

(** In that instance action 0 samples bin 1 and action 1 samples bin 1:
    the atoms tie and the first action is answered. *)
Example C51TS_act_train_instance :
  sampled_bin (frac 3 5) [frac 1 4; frac 1 2; frac 1 4] = 1%nat
  ∧ sampled_bin (frac 3 5) [frac 1 2; frac 1 4; frac 1 4] = 1%nat
  ∧ C51TS._act_train (model3x2 1) (fun _ => frac 3 5)
      [[[frac 1 4; frac 1 2; frac 1 4]; [frac 1 2; frac 1 4; frac 1 4]]] = [0%nat].
Proof. repeat split; by_evaluation. Qed.

(** ** The agent: construction and evaluation *)

(** X11.  [AgentDQN.__init__] fails with an assertion error, whatever the
    observation space and before the model is built, when the action space
    of the environment is not [Discrete]. *)
Theorem agent_init_rejects_action_space :
  forall (St RB : Type) (env : AgentDQN.env)
    (model_cls : list nat → nat → result (AgentDQN.Model St))
    (exploration : Z → Qc) (update_target_freq memory_size : Z)
    (obs_len : nat) (epsilon_eval : Qc)
    (ReplayBuffer : Z → list nat → nat → result RB)
    (_define_log_info : result unit),
  (forall n, AgentDQN.action_space env ≠ AgentDQN.Discrete n) →
  AgentDQN.__init__ (inr env) model_cls exploration update_target_freq
    memory_size obs_len epsilon_eval ReplayBuffer _define_log_info
  = inl AssertionError.
Proof.
  intros St RB env ? ? ? ? ? ? ? ? Hact.
  unfold AgentDQN.__init__; simpl.
  destruct (AgentDQN.observation_space env); try done.
  destruct (AgentDQN.action_space env) eqn:Ha; try done.
  by destruct (Hact n).
Qed.

(** X12.  [AgentDQN._action_eval] reads exactly one uniform draw [u] and
    samples from the action space exactly when [u < epsilon_eval]; the
    step [t] and the exploration schedule play no part.  With
    [epsilon_eval = 0] it always returns the network's action. *)
Theorem action_eval_epsilon_greedy {St RB} (self : AgentDQN.AgentDQN St RB)
    (state : St) (t : Z) (w : AgentDQN.world) :
  let u := AgentDQN.uniform w (AgentDQN.uniform_pos w) in
  let greedy := AgentDQN.action_eval (AgentDQN.model self) state in
  let random := AgentDQN.space_sample w (AgentDQN.space_pos w) in
  let out := AgentDQN._action_eval self state t w in
  0 ≤ u →
  AgentDQN.uniform_pos out.2 = S (AgentDQN.uniform_pos w)
  ∧ (AgentDQN.epsilon_eval self = 0 → out.1 = greedy)
  ∧ (u < AgentDQN.epsilon_eval self
     ↔ AgentDQN.space_pos out.2 = S (AgentDQN.space_pos w))
  ∧ out.1 = (if decide (u < AgentDQN.epsilon_eval self) then random else greedy).
Proof.
  intros u greedy random out Hu0.
  unfold out, AgentDQN._action_eval, AgentDQN.prng_uniform,
    AgentDQN.action_space_sample.
  fold u greedy random.
  destruct (decide (u < AgentDQN.epsilon_eval self)) as [Hlt|Hge]; simpl.
  - split_and!; try done.
    intros H0. rewrite H0 in Hlt. by apply Qclt_not_le in Hlt.
  - split_and!; try done. split; [done | lia].
Qed.

Lemma agent_init_rejects_action_space_witness :
  AgentDQN.__init__ (St:=unit) (RB:=unit) (inr multi_env)
    (fun _ _ => inr {| AgentDQN.action_train := fun _ => 0%nat;
                       AgentDQN.action_eval := fun _ => 0%nat |})
    (fun _ => 1) 10000 1000 4 (frac 1 1000) (fun _ _ _ => inr tt) (inr tt)
  = inl AssertionError.
Proof.
  apply agent_init_rejects_action_space. intros n. discriminate.
Defined.

Lemma action_eval_epsilon_greedy_witness :
  (AgentDQN._action_eval (agent2 1) tt 0 (world0 (frac 1 2))).1 = 1%nat
  ∧ (AgentDQN._action_eval (agent2 1) tt 0 (world0 0)).1 = 0%nat.
Proof.
  split.
  - destruct (action_eval_epsilon_greedy (agent2 1) tt 0 (world0 (frac 1 2)))
      as (_ & _ & _ & ->); [by_evaluation|].
    by rewrite decide_False by by_evaluation.
  - destruct (action_eval_epsilon_greedy (agent2 1) tt 0 (world0 0))
      as (_ & _ & _ & ->); [by_evaluation|].
    by rewrite decide_True by by_evaluation.
Defined.

(** ** Episodes *)

Section episodes.
Import StatsRecorder.

Lemma run_app cs1 cs2 (s : StatsRecorder) : run (cs1 ++ cs2) s = run cs2 (run cs1 s).
Proof. unfold run. apply foldl_app. Qed.

(** Steps inside an episode count the step and add up the reward. *)
Lemma run_steps rs : forall (s : StatsRecorder) n a,
  ep_steps s = Some n → ep_reward s = Some a →
  run ((fun r => call_after_step r false) <$> rs) s
  = set_ep_reward (Some (foldl fadd a rs))
      (set_env_steps (env_steps s + Z.of_nat (length rs))
         (set_ep_steps (Some (n + Z.of_nat (length rs))%Z) s)).
Proof.
  induction rs as [|r rs IH]; intros s n a Hn Ha.
  - destruct s; simpl in *; subst. unfold set_ep_reward, set_env_steps, set_ep_steps; simpl.
    f_equal; [f_equal; lia | lia].
  - change (run ((fun r => call_after_step r false) <$> r :: rs) s)
      with (run ((fun r => call_after_step r false) <$> rs)
              (after_step r false s).2).
    rewrite (IH _ (n + 1)%Z (fadd a r)).
    + destruct s; simpl in *; subst.
      unfold after_step, mbind, M_bind, get, modify, not_None, throw, mret, M_ret,
        set_ep_reward, set_env_steps, set_ep_steps; simpl.
      f_equal; [f_equal; lia | lia].
    + destruct s; simpl in *; subst. done.
    + destruct s; simpl in *; subst. done.
Qed.

End episodes.

Section episodes2.
Import StatsRecorder.

(** The last step of an episode files the episode under the mode of that
    moment. *)
Lemma run_last_step (s : StatsRecorder) n a r :
  ep_steps s = Some n → ep_reward s = Some a →
  let s' := (after_step r true s).2 in
  env_steps s' = (env_steps s + 1)%Z
  ∧ recorded (bool_decide (_mode s = "t")) s'
    = (let '(steps, lens, rews) := recorded (bool_decide (_mode s = "t")) s in
       ((steps + (n + 1))%Z, lens ++ [(n + 1)%Z], rews ++ [fadd a r]))
  ∧ recorded (negb (bool_decide (_mode s = "t"))) s'
    = recorded (negb (bool_decide (_mode s = "t"))) s.
Proof.
  intros Hn Ha. destruct s; simpl in *; subst.
  unfold after_step, _finish_episode, mbind, M_bind, get, modify, not_None,
    throw, mret, M_ret, recorded; simpl.
  destruct (bool_decide (_mode0 = "t")); simpl; done.
Qed.

(** X13.  An episode (reset, steps, last step with [done]) adds its number
    of steps to [env_steps] and files one entry under the mode the
    recorder is in: the step count grows by the length of the episode, the
    length and the summed reward are appended.  Mode ["t"] is training;
    every other mode is filed as evaluation.  The other mode's records are
    untouched. *)
Theorem episode_is_recorded (s : StatsRecorder) rs r :
  let train := bool_decide (_mode s = "t") in
  let len := (Z.of_nat (length rs) + 1)%Z in
  let s' := run (episode rs r) s in
  env_steps s' = (env_steps s + len)%Z
  ∧ recorded train s'
    = (let '(steps, lens, rews) := recorded train s in
       ((steps + len)%Z, lens ++ [len], rews ++ [foldl fadd (fin 0) (rs ++ [r])]))
  ∧ recorded (negb train) s' = recorded (negb train) s.
Proof.
  intros train len s'. unfold s', episode.
  change (run (call_after_reset :: ?cs) s) with (run cs (after_reset s).2).
  rewrite run_app.
  rewrite (run_steps rs _ 0%Z (fin 0)) by (by destruct s).
  set (s1 := set_ep_reward _ _).
  change (run [call_after_step r true] s1) with (after_step r true s1).2.
  destruct (run_last_step s1 (0 + Z.of_nat (length rs)) (foldl fadd (fin 0) rs) r)
    as (He & Ht & Hf).
  { unfold s1. by destruct s. }
  { unfold s1. by destruct s. }
  assert (_mode s1 = _mode s) as Hm by (unfold s1; by destruct s).
  rewrite Hm in Ht, Hf. fold train in Ht, Hf.
  rewrite He, Ht, Hf, foldl_app. simpl.
  unfold s1, len, recorded. destruct s; simpl.
  destruct train; simpl; split_and!; try done; try lia; repeat f_equal; lia.
Qed.

(** X14.  When the mode is set in the middle of an episode, the whole
    episode, with the steps taken before the change, is filed under the
    mode set: the mode at the end of the episode is the one used. *)
Theorem episode_uses_mode_at_end (s : StatsRecorder) rs1 m rs2 r :
  m = "t" ∨ m = "e" →
  let train := bool_decide (m = "t") in
  let len := (Z.of_nat (length rs1) + Z.of_nat (length rs2) + 1)%Z in
  let s' := run (episode_switching rs1 m rs2 r) s in
  env_steps s' = (env_steps s + len)%Z
  ∧ recorded train s'
    = (let '(steps, lens, rews) := recorded train s in
       ((steps + len)%Z, lens ++ [len],
        rews ++ [foldl fadd (fin 0) (rs1 ++ rs2 ++ [r])]))
  ∧ recorded (negb train) s' = recorded (negb train) s.
Proof.
  intros Hm train len s'. unfold s', episode_switching.
  change (run (call_after_reset :: ?cs) s) with (run cs (after_reset s).2).
  rewrite run_app.
  rewrite (run_steps rs1 _ 0%Z (fin 0)) by (by destruct s).
  set (s1 := set_ep_reward _ _).
  change (run (call_mode_setter m :: ?cs) s1) with (run cs (mode_setter m s1).2).
  assert ((mode_setter m s1).2 = set_mode m s1) as ->.
  { unfold mode_setter. rewrite bool_decide_eq_true_2; [done|].
    rewrite !elem_of_cons. tauto. }
  rewrite run_app.
  rewrite (run_steps rs2 _ (0 + Z.of_nat (length rs1))%Z (foldl fadd (fin 0) rs1))
    by (unfold s1; by destruct s).
  set (s2 := set_ep_reward _ _).
  change (run [call_after_step r true] s2) with (after_step r true s2).2.
  destruct (run_last_step s2 (0 + Z.of_nat (length rs1) + Z.of_nat (length rs2))
              (foldl fadd (foldl fadd (fin 0) rs1) rs2) r) as (He & Ht & Hf).
  { unfold s2, s1. by destruct s. }
  { unfold s2, s1. by destruct s. }
  assert (_mode s2 = m) as Hm2 by (unfold s2, s1; by destruct s).
  rewrite Hm2 in Ht, Hf. fold train in Ht, Hf.
  rewrite He, Ht, Hf, !foldl_app. simpl.
  unfold s2, s1, len, recorded. destruct s; simpl.
  destruct train; simpl; split_and!; try done; try lia; repeat f_equal; lia.
Qed.

End episodes2.

(** ** What every call preserves *)

Section preserved.
Import StatsRecorder.

(** A computation keeps a field [f] of the recorder when each of its
    steps does. *)
Lemma keeps_bind {A B X} (f : StatsRecorder → X) (m : M A) (k : A → M B) :
  (forall s, f (m s).2 = f s) →
  (forall a s, f (k a s).2 = f s) →
  forall s, f ((m ≫= k) s).2 = f s.
Proof.
  intros Hm Hk s. unfold mbind, M_bind. specialize (Hm s).
  destruct (m s) as [[e|a] s']; simpl in *; [done|].
  by rewrite Hk.
Qed.

Lemma keeps_get {A X} (f : StatsRecorder → X) (g : StatsRecorder → A) :
  forall s, f (get g s).2 = f s.
Proof. done. Qed.

Lemma keeps_not_None {A X} (f : StatsRecorder → X) (g : StatsRecorder → option A) :
  forall s, f (not_None g s).2 = f s.
Proof. intros s. unfold not_None. by destruct (g s). Qed.

Lemma keeps_throw {A X} (f : StatsRecorder → X) (e : exn) :
  forall s, f (throw (A:=A) e s).2 = f s.
Proof. done. Qed.

Lemma keeps_ret {A X} (f : StatsRecorder → X) (a : A) :
  forall s, f (mret (M:=M) a s).2 = f s.
Proof. done. Qed.

Lemma keeps_modify {X} (f : StatsRecorder → X) (g : StatsRecorder → StatsRecorder) :
  (forall s, f (g s) = f s) →
  forall s, f (modify g s).2 = f s.
Proof. intros Hg s. apply Hg. Qed.

(** [_compute_runtime_stats] writes the two dictionaries, [steps_p_s],
    [step_last_log] and [t_last_log], and nothing else, whether or not it
    raises. *)
Lemma _compute_runtime_stats_keeps {X} (f : StatsRecorder → X) step t_now :
  (forall v s, f (set_train_stats v s) = f s) →
  (forall v s, f (set_eval_stats v s) = f s) →
  (forall v s, f (set_steps_p_s v s) = f s) →
  (forall v s, f (set_step_last_log v s) = f s) →
  (forall v s, f (set_t_last_log v s) = f s) →
  forall s, f (_compute_runtime_stats step t_now s).2 = f s.
Proof.
  intros H1 H2 H3 H4 H5. unfold _compute_runtime_stats.
  repeat first
    [ apply keeps_get | apply keeps_not_None | apply keeps_throw | apply keeps_ret
    | apply keeps_modify; done
    | apply keeps_bind; [|intros ?]
    | destruct (bool_decide _)
    | destruct (decide _) ].
Qed.

(** [_compute_runtime_stats] changes neither the episode records nor
    [disabled]. *)
Lemma _compute_runtime_stats_keeps_records step t_now (s : StatsRecorder) :
  let s' := (_compute_runtime_stats step t_now s).2 in
  train_ep_rews s' = train_ep_rews s
  ∧ train_ep_lens s' = train_ep_lens s
  ∧ eval_ep_rews s' = eval_ep_rews s
  ∧ eval_ep_lens s' = eval_ep_lens s
  ∧ disabled s' = disabled s.
Proof.
  split_and!; apply _compute_runtime_stats_keeps; by intros ? [].
Qed.

Lemma call_keeps_lengths c (s : StatsRecorder) :
  length (train_ep_rews s) = length (train_ep_lens s) →
  length (eval_ep_rews s) = length (eval_ep_lens s) →
  length (train_ep_rews (run_call c s).2) = length (train_ep_lens (run_call c s).2)
  ∧ length (eval_ep_rews (run_call c s).2) = length (eval_ep_lens (run_call c s).2).
Proof.
  intros Ht He.
  assert (forall step t_now,
    length (train_ep_rews (_compute_runtime_stats step t_now s).2)
    = length (train_ep_lens (_compute_runtime_stats step t_now s).2)
    ∧ length (eval_ep_rews (_compute_runtime_stats step t_now s).2)
      = length (eval_ep_lens (_compute_runtime_stats step t_now s).2)) as Hcompute.
  { intros step t_now.
    destruct (_compute_runtime_stats_keeps_records step t_now s)
      as (-> & -> & -> & -> & _). done. }
  destruct c; try apply Hcompute.
  all: destruct s; simpl in *;
    unfold mode_setter, before_step, after_step, _finish_episode,
      before_reset, after_reset, close,
      mbind, M_bind, get, modify, not_None, throw, mret, M_ret; simpl.
  - by destruct (negb _).
  - by destruct disabled0.
  - destruct ep_steps0; simpl; [|done].
    destruct ep_reward0; simpl; [|done].
    destruct done; simpl; [|done].
    destruct (bool_decide _); simpl; rewrite !length_app; simpl; lia.
  - by destruct disabled0.
  - done.
  - done.
Qed.

(** X15.  Over every sequence of calls the recorder keeps one reward per
    recorded episode length, for training and for evaluation: the two
    lists of a mode never get out of step, also when a call raises. *)
Theorem rewards_and_lengths_in_step cs (s : StatsRecorder) :
  length (train_ep_rews s) = length (train_ep_lens s) →
  length (eval_ep_rews s) = length (eval_ep_lens s) →
  length (train_ep_rews (run cs s)) = length (train_ep_lens (run cs s))
  ∧ length (eval_ep_rews (run cs s)) = length (eval_ep_lens (run cs s)).
Proof.
  revert s. induction cs as [|c cs IH]; intros s Ht He; [done|].
  destruct (call_keeps_lengths c s Ht He) as [Ht' He'].
  by apply IH.
Qed.

Lemma call_keeps_disabled c (s : StatsRecorder) :
  disabled s = true → disabled (run_call c s).2 = true.
Proof.
  intros Hd.
  assert (forall step t_now, disabled (_compute_runtime_stats step t_now s).2 = true)
    as Hcompute.
  { intros step t_now.
    by destruct (_compute_runtime_stats_keeps_records step t_now s)
      as (_ & _ & _ & _ & ->). }
  destruct c; try apply Hcompute.
  all: destruct s; simpl in *;
    unfold mode_setter, before_step, after_step, _finish_episode,
      before_reset, after_reset, close,
      mbind, M_bind, get, modify, not_None, throw, mret, M_ret; simpl.
  - by destruct (negb _).
  - by destruct disabled0.
  - destruct ep_steps0; simpl; [|done].
    destruct ep_reward0; simpl; [|done].
    destruct done; simpl; [|done].
    by destruct (bool_decide _).
  - by destruct disabled0.
  - done.
  - done.
Qed.

(** X16.  Closing is final.  After [close], whatever calls follow, the
    recorder stays disabled: [before_step] and [before_reset] raise an
    assertion error and [save] writes no file. *)
Theorem closed_recorder_stays_closed cs (s : StatsRecorder) :
  let s' := run cs (close s).2 in
  disabled s' = true
  ∧ (before_step s').1 = inl AssertionError
  ∧ (before_reset s').1 = inl AssertionError
  ∧ save s' = [].
Proof.
  intros s'.
  assert (disabled s' = true) as Hd.
  { unfold s'. generalize (close s).2, (eq_refl : disabled (close s).2 = true).
    induction cs as [|c cs IH]; intros s0 H0; [done|].
    apply IH. by apply call_keeps_disabled. }
  split; [done|].
  unfold before_step, before_reset, save, mbind, M_bind, get, throw; simpl.
  by rewrite Hd.
Qed.

End preserved.

(** ** Outcomes of [_compute_runtime_stats] *)

Section outcomes.
Import StatsRecorder.

(** With both dictionaries in place, the whole of
    [_compute_runtime_stats]: the two dictionaries are updated, then, in
    training mode, the rate is computed and averaged with the previous
    one. *)
Lemma _compute_runtime_stats_unfold step t_now (s : StatsRecorder) st se :
  train_stats s = Some st → eval_stats s = Some se →
  _compute_runtime_stats step t_now s
  = let s1 :=
      set_eval_stats (Some (updated s (eval_ep_rews s) (eval_ep_lens s) se))
        (set_train_stats (Some (updated s (train_ep_rews s) (train_ep_lens s) st)) s) in
    if bool_decide (_mode s = "t")
    then if decide (t_now - t_last_log s = 0) then (inl ZeroDivisionError, s1)
         else
           let r := Qc_of_Z (step - step_last_log s) / (t_now - t_last_log s) in
           let r := match steps_p_s s with
                    | None => r
                    | Some p => (r + p) / (1 + 1)
                    end in
           (inr tt, set_t_last_log t_now (set_step_last_log step (set_steps_p_s (Some r) s1)))
    else (inr tt, set_t_last_log t_now s1).
Proof.
  intros Hst Hse. destruct s; simpl in *; subst.
  unfold _compute_runtime_stats, mbind, M_bind, get, modify, not_None, throw, mret, M_ret;
    simpl.
  destruct (bool_decide _); simpl; [|done].
  destruct (decide _); simpl; done.
Qed.

(** X17.  Before [define_log_info] has created the dictionaries,
    [_compute_runtime_stats] raises a type error and leaves the recorder as
    it was.  Once both exist it cannot raise except in training mode with
    [t_now] equal to the time of the previous log, where the rate is a
    division by zero: then the dictionaries are already updated and the
    time of the last log is not. *)
Theorem compute_runtime_stats_outcome step t_now (s : StatsRecorder) :
  (train_stats s = None →
     _compute_runtime_stats step t_now s = (inl TypeError, s))
  ∧ (forall st se, train_stats s = Some st → eval_stats s = Some se →
       let out := _compute_runtime_stats step t_now s in
       if decide (_mode s = "t" ∧ t_now = t_last_log s)
       then out.1 = inl ZeroDivisionError
            ∧ t_last_log out.2 = t_last_log s
            ∧ steps_p_s out.2 = steps_p_s s
            ∧ train_stats out.2
              = Some (updated s (train_ep_rews s) (train_ep_lens s) st)
       else out.1 = inr tt ∧ t_last_log out.2 = t_now).
Proof.
  split.
  - intros Hst. unfold _compute_runtime_stats, mbind, M_bind, get, not_None.
    by rewrite Hst.
  - intros st se Hst Hse out. unfold out.
    rewrite (_compute_runtime_stats_unfold _ _ _ _ _ Hst Hse). clear out.
    destruct (decide (_mode s = "t" ∧ t_now = t_last_log s)) as [[Hm Ht]|Hn].
    + rewrite bool_decide_eq_true_2 by done.
      rewrite decide_True by (rewrite Ht; ring). done.
    + destruct (bool_decide (_mode s = "t")) eqn:Hm; [|done].
      apply bool_decide_eq_true in Hm.
      rewrite decide_False; [done|].
      intros H0. apply Hn. split; [done|].
      rewrite <-(Qcplus_0_l (t_last_log s)), <-H0. ring.
Qed.

Lemma compute_runtime_stats_outcome_witness :
  _compute_runtime_stats 10 1 (recorder0 "t") = (inl TypeError, recorder0 "t")
  ∧ (_compute_runtime_stats 10 0 (recorder1 "t")).1 = inl ZeroDivisionError
  ∧ (_compute_runtime_stats 10 1 (recorder1 "t")).1 = inr tt.
Proof.
  split_and!.
  - by apply (compute_runtime_stats_outcome 10 1 (recorder0 "t")).
  - pose proof (proj2 (compute_runtime_stats_outcome 10 0 (recorder1 "t"))
                  fresh_stats fresh_stats eq_refl eq_refl) as H.
    destruct (decide _) as [_|Hn] in H; [apply H|].
    destruct Hn. split; reflexivity.
  - pose proof (proj2 (compute_runtime_stats_outcome 10 1 (recorder1 "t"))
                  fresh_stats fresh_stats eq_refl eq_refl) as H.
    destruct (decide _) as [[_ Hc]|_] in H; [|apply H].
    exfalso. revert Hc. by_evaluation.
Defined.

End outcomes.

(** ** The best episode reward is the largest reward *)

Section largest_reward.
Import StatsRecorder.

Lemma fgt_irrefl a : fgt a a = false.
Proof.
  destruct a; simpl; try done.
  apply bool_decide_eq_false. intros H. by apply Qclt_not_le in H.
Qed.

Lemma fgt_neg_trans a b c :
  is_number b → fgt c a = true → fgt c b = true ∨ fgt b a = true.
Proof.
  unfold is_number. destruct a, b, c; simpl; intros Hb; try done; auto.
  rewrite !bool_decide_eq_true. intros Hac.
  destruct (Qclt_le_dec q0 q1); [by left|].
  right. by eapply Qclt_le_trans.
Qed.

Lemma py_max_number a b : is_number a → is_number b → is_number (py_max a b).
Proof. unfold py_max. by destruct (fgt b a). Qed.

Lemma py_max_assoc a b c :
  is_number b → py_max (py_max a b) c = py_max a (py_max b c).
Proof.
  intros Hb. unfold py_max.
  destruct (fgt b a) eqn:Hba, (fgt c b) eqn:Hcb; try done.
  - by rewrite (fgt_trans _ _ _ Hcb Hba).
  - by rewrite Hba.
  - rewrite Hba. destruct (fgt c a) eqn:Hca; [|done].
    destruct (fgt_neg_trans a b c Hb Hca); congruence.
Qed.

Lemma py_max_ninf_l b : is_number b → py_max ninf b = b.
Proof. unfold is_number, py_max. by destruct b. Qed.

Lemma py_max_ninf_r a : py_max a ninf = a.
Proof. unfold py_max. by destruct a. Qed.

Lemma np_maximum_number a b :
  is_number a → is_number b → np_maximum a b = py_max a b.
Proof. unfold is_number, np_maximum, py_max. by destruct a, b. Qed.

Lemma largest_number l : Forall is_number l → is_number (largest l).
Proof.
  induction 1; simpl; [done|]. by apply py_max_number.
Qed.

Lemma largest_app l1 l2 :
  Forall is_number l1 → Forall is_number l2 →
  largest (l1 ++ l2) = py_max (largest l1) (largest l2).
Proof.
  intros H1 H2. induction H1 as [|x l1 Hx H1 IH]; simpl.
  - symmetry. by apply py_max_ninf_l, largest_number.
  - rewrite IH. symmetry. by apply py_max_assoc, largest_number.
Qed.

Lemma np_max_largest rest : forall x,
  is_number x → Forall is_number rest →
  np_max x rest = largest (x :: rest).
Proof.
  unfold np_max.
  induction rest as [|y rest IH]; intros x Hx Hrest; simpl.
  - by rewrite py_max_ninf_r.
  - apply Forall_cons in Hrest as [Hy Hrest].
    rewrite np_maximum_number by done.
    rewrite IH by (by try apply py_max_number). simpl.
    by apply py_max_assoc.
Qed.

Lemma _stats_max_largest data k :
  Forall is_number data →
  (0 ≤ k ≤ Z.of_nat (length data))%Z →
  _stats_max data k = largest (drop (Z.to_nat k) data).
Proof.
  intros Hdata Hk. unfold _stats_max, slice_from.
  rewrite decide_False by lia. rewrite Z.min_l by lia.
  assert (Forall is_number (drop (Z.to_nat k) data)) as Hd by (by apply Forall_drop).
  destruct (drop (Z.to_nat k) data) as [|x rest]; [done|].
  apply Forall_cons in Hd as [Hx Hrest]. by apply np_max_largest.
Qed.

(** X18.  [_compute_runtime_stats] looks only at the episodes finished since
    the previous call, and still keeps the overall maximum: when the stored
    best reward is the largest reward among the first [ep_last_stats]
    training episodes and no reward is not-a-number, the call stores the
    largest reward of all training episodes and moves [ep_last_stats] to
    their number.  The stored mean never exceeds the stored best mean. *)
Theorem best_ep_rew_is_largest step t_now (s : StatsRecorder) st :
  train_stats s = Some st →
  Forall is_number (train_ep_rews s) →
  (0 ≤ ep_last_stats st ≤ Z.of_nat (length (train_ep_rews s)))%Z →
  best_ep_rew st = largest (take (Z.to_nat (ep_last_stats st)) (train_ep_rews s)) →
  ∃ st', train_stats (_compute_runtime_stats step t_now s).2 = Some st'
         ∧ best_ep_rew st' = largest (train_ep_rews s)
         ∧ ep_last_stats st' = Z.of_nat (length (train_ep_rews s))
         ∧ fgt (mean_ep_rew st') (best_mean_rew st') = false.
Proof.
  intros Hst Hnum Hk Hbest.
  rewrite (_compute_runtime_stats_train _ _ _ _ Hst).
  eexists. split; [done|]. simpl. split_and!.
  - rewrite Hbest, _stats_max_largest by done.
    rewrite <-largest_app by (by try apply Forall_take; try apply Forall_drop).
    by rewrite take_drop.
  - done.
  - unfold py_max. destruct (fgt _ (best_mean_rew st)) eqn:H; [|done].
    apply fgt_irrefl.
Qed.

Lemma best_ep_rew_is_largest_witness :
  ∃ st', train_stats (_compute_runtime_stats 3 (frac 3 1) recorder_logged).2 = Some st'
         ∧ best_ep_rew st' = largest (train_ep_rews recorder_logged)
         ∧ ep_last_stats st' = Z.of_nat (length (train_ep_rews recorder_logged))
         ∧ fgt (mean_ep_rew st') (best_mean_rew st') = false.
Proof.
  apply (best_ep_rew_is_largest 3 (frac 3 1) recorder_logged
           (set_best_ep_rew (fin (frac 3 1)) (set_ep_last_stats 2 fresh_stats))).
  - reflexivity.
  - repeat constructor; done.
  - simpl. lia.
  - by_evaluation.
Defined.

End largest_reward.

(** ** The mean episode reward *)

Section mean_reward.
Import StatsRecorder.

Lemma sum_of_numbers qs : foldr fadd (fin 0) (fin <$> qs) = fin (reduce_sum qs).
Proof.
  unfold reduce_sum. induction qs as [|q qs IH]; csimpl; [done|].
  by rewrite IH.
Qed.

Lemma np_mean_of_numbers qs :
  np_mean (fin <$> qs)
  = match qs with
    | [] => nan
    | _ => fin (reduce_sum qs / Qc_of_Z (Z.of_nat (length qs)))
    end.
Proof.
  unfold np_mean. rewrite sum_of_numbers, length_fmap. by destruct qs.
Qed.

(** X19.  [get_mean_ep_rew] leaves the recorder as it is and averages a
    window of the finished training episodes: the last [n_ep_stats] of
    them (all of them when there are fewer) for a positive [n_ep_stats],
    all of them for [n_ep_stats = 0], and all but the first [-n_ep_stats]
    for a negative one.  An empty window, in particular before the first
    episode ends, gives not-a-number. *)
Theorem get_mean_ep_rew_window (s : StatsRecorder) (qs : list Qc) :
  train_ep_rews s = fin <$> qs →
  let n := n_ep_stats s in
  let window :=
    if decide (0 < n)%Z then drop (length qs - Z.to_nat n) qs
    else drop (Z.to_nat (- n)) qs in
  get_mean_ep_rew s
  = (inr match window with
         | [] => nan
         | _ => fin (reduce_sum window / Qc_of_Z (Z.of_nat (length window)))
         end, s).
Proof.
  intros Hqs n window. unfold get_mean_ep_rew, get, _stats_mean.
  rewrite Hqs, length_fmap. f_equal. f_equal.
  assert (slice_from (- n) qs = window) as Hw.
  { unfold slice_from, window. fold n.
    destruct (decide (0 < n)%Z) as [Hn|Hn].
    - rewrite decide_True by lia. f_equal. lia.
    - rewrite decide_False by lia.
      destruct (decide (- n ≤ Z.of_nat (length qs))%Z).
      + by rewrite Z.min_l by lia.
      + rewrite Z.min_r by lia. rewrite !drop_ge; [done| lia..]. }
  destruct (decide (0 < length qs)%nat) as [Hlen|Hlen].
  - fold n. assert (slice_from (- n) (fin <$> qs) = fin <$> window) as ->.
    { rewrite <-Hw. unfold slice_from. by rewrite length_fmap, fmap_drop. }
    apply np_mean_of_numbers.
  - destruct qs; [|simpl in Hlen; lia].
    unfold window. destruct (decide _); by rewrite drop_nil.
Qed.

Lemma get_mean_ep_rew_window_witness :
  get_mean_ep_rew recorder_logged
  = (inr (fin (reduce_sum [frac 3 1; 1; frac 5 1] / Qc_of_Z 3)), recorder_logged).
Proof.
  by apply (get_mean_ep_rew_window recorder_logged [frac 3 1; 1; frac 5 1]).
Defined.

End mean_reward.

Section episode_witnesses.
Import StatsRecorder.

Lemma episode_uses_mode_at_end_witness :
  recorded false
    (run
       (episode_switching [fin 1] "e" []
          (fin 1))
       (recorder1 "t"))
  = (2%Z, [2%Z], [fin (frac 2 1)]).
Proof.
  destruct (episode_uses_mode_at_end (recorder1 "t")
              [fin 1] "e" [] (fin 1))
    as (_ & H & _); [by right|].
  etrans; [exact H|]. by_evaluation.
Defined.

Lemma rewards_and_lengths_in_step_witness :
  length (train_ep_rews (run two_episodes (recorder1 "t")))
  = length (train_ep_lens (run two_episodes (recorder1 "t")))
  ∧ length (eval_ep_rews (run two_episodes (recorder1 "t")))
    = length (eval_ep_lens (run two_episodes (recorder1 "t"))).
Proof.
  apply (rewards_and_lengths_in_step two_episodes (recorder1 "t"));
    reflexivity.
Defined.

End episode_witnesses.
